(** * Heal-Fit: the report analyzer, the dashboard shell and the rewards counter

    A shallow embedding of the parts of the Heal-Fit client that carry logic:
    - [ReportAnalyzer] (components/ReportAnalyzer.tsx): [handleFileChange],
      [fileToGenerativePart], [analyzeContent], [extractSection] and
      [generatePDF];
    - [AuthenticatedApp] (App.tsx): the six panel toggles and the choice of
      the component shown;
    - the dashboard (in components/Profile.tsx): [completeTask],
      [claimReward], [redeemCoupon], [toggleChallenge],
      [handleJournalSubmit], [formatAIResponse], [askAI] and the user id;
    - [HealthProfile]: [nextStep] and [prevStep].

    JavaScript strings are modelled as Rocq strings whose characters are the
    code units 0..255 (Latin-1); [toLowerCase] and [trim] are written out for
    that range.  JavaScript objects used as maps are [gmap string _]. *)

From Stdlib Require Import ZArith QArith Ascii String List Bool Lia DecimalString.
From stdpp Require Import base gmap strings.

Local Open Scope string_scope.
#[local] Arguments String.append !s1 s2 : simpl nomatch.

(** ** JavaScript string primitives used by the source *)

Module Js.

Definition LF : ascii := "010"%char.
Definition nl : string := String LF EmptyString.
Definition dquote : string := String "034"%char EmptyString.

(** [WhiteSpace] and [LineTerminator] code points below 256:
    TAB, LF, VT, FF, CR, SP and NBSP. *)
Definition isWhiteSpace (c : ascii) : bool :=
  let n := nat_of_ascii c in
  ((9 <=? n)%nat && (n <=? 13)%nat) || (n =? 32)%nat || (n =? 160)%nat.

(** Latin-1 lower-casing: A-Z, and the accented capitals 0xC0-0xDE
    except the multiplication sign 0xD7. *)
Definition lowerChar (c : ascii) : ascii :=
  let n := nat_of_ascii c in
  if ((65 <=? n)%nat && (n <=? 90)%nat)
     || ((192 <=? n)%nat && (n <=? 222)%nat && negb (n =? 215)%nat)
  then ascii_of_nat (n + 32) else c.

Fixpoint toLowerCase (s : string) : string :=
  match s with
  | EmptyString => EmptyString
  | String c s' => String (lowerChar c) (toLowerCase s')
  end.

Fixpoint startsWith (s p : string) : bool :=
  match p, s with
  | EmptyString, _ => true
  | String a p', String b s' => Ascii.eqb a b && startsWith s' p'
  | String _ _, EmptyString => false
  end.

Fixpoint includes (s sub : string) : bool :=
  startsWith s sub ||
  match s with
  | EmptyString => false
  | String _ s' => includes s' sub
  end.

Definition endsWith (s suf : string) : bool :=
  let n := String.length s in
  let m := String.length suf in
  (m <=? n)%nat && String.eqb (substring (n - m) m s) suf.

Fixpoint trimStart (s : string) : string :=
  match s with
  | EmptyString => EmptyString
  | String c s' => if isWhiteSpace c then trimStart s' else s
  end.

Fixpoint trimEnd (s : string) : string :=
  match s with
  | EmptyString => EmptyString
  | String c s' =>
      match trimEnd s' with
      | EmptyString => if isWhiteSpace c then EmptyString
                       else String c EmptyString
      | t => String c t
      end
  end.

Definition trim (s : string) : string := trimEnd (trimStart s).

(** [s.split(sep)] for a one-character separator. *)
Fixpoint split (sep : ascii) (s : string) : list string :=
  match s with
  | EmptyString => [EmptyString]
  | String c s' =>
      if Ascii.eqb c sep then EmptyString :: split sep s'
      else match split sep s' with
           | l :: ls => String c l :: ls
           | [] => [String c EmptyString]
           end
  end.

(** [xs.join(sep)]. *)
Fixpoint join (sep : string) (xs : list string) : string :=
  match xs with
  | [] => EmptyString
  | [x] => x
  | x :: rest => x +:+ sep +:+ join sep rest
  end.

(** A string used as a condition: the empty string is falsy. *)
Definition truthy (s : string) : bool := negb (String.eqb s EmptyString).

(** [a || b] on strings. *)
Definition orElse (a b : string) : string := if truthy a then a else b.

(** Template interpolation of a non-negative integer. *)
Definition ofNat (n : nat) : string := NilEmpty.string_of_uint (Nat.to_uint n).

(** Predicates on strings used to speak about lines: every character is
    white space; no character is a line feed. *)
Definition allWhite (s : string) : bool :=
  forallb isWhiteSpace (list_ascii_of_string s).

Definition noLF (s : string) : bool :=
  forallb (fun c => negb (Ascii.eqb c LF)) (list_ascii_of_string s).

End Js.

(** ** Section extraction (ReportAnalyzer.tsx, [extractSection]) *)

Module Extract.
Import Js.

(** [sectionNames.some(name => line.includes(name.toLowerCase()) &&
      (line.includes(':') || line.endsWith(name.toLowerCase())))];
    [line] is already lower-cased by the caller. *)
Definition isTargetSection (sectionNames : list string) (line : string) : bool :=
  existsb (fun name =>
             includes line (toLowerCase name) &&
             (includes line ":" || endsWith line (toLowerCase name)))
          sectionNames.

(** [line.length < 50 && (line.includes(':') || line.endsWith(':')) &&
     !line.includes('  ')]. *)
Definition isPotentialHeading (line : string) : bool :=
  (String.length line <? 50)%nat &&
  (includes line ":" || endsWith line ":") &&
  negb (includes line "  ").

(** [i > 0 && lines[i-1].trim() === '']: [prev] is [lines[i-1]], absent
    when [i = 0]. *)
Definition prevIsBlank (prev : option string) : bool :=
  match prev with
  | Some p => String.eqb (trim p) EmptyString
  | None => false
  end.

(** The [for] loop over [lines], from index [i] on: [lines] is the
    remaining suffix, [prev] the line before it.  [break] returns the
    text captured so far. *)
Fixpoint scanLines (sectionNames : list string) (prev : option string)
         (lines : list string) (extractedText : string) (capturing : bool)
  : string :=
  match lines with
  | [] => extractedText
  | l :: rest =>
      let line := toLowerCase l in
      if isTargetSection sectionNames line then
        scanLines sectionNames (Some l) rest l true
      else if capturing then
        if isPotentialHeading line && prevIsBlank prev then extractedText
        else scanLines sectionNames (Some l) rest
                       (extractedText +:+ nl +:+ l) true
      else scanLines sectionNames (Some l) rest extractedText false
  end.

Definition noInformation : string := "No information available".

Definition extractSection (text : string) (sectionNames : list string) : string :=
  let lines := split LF text in
  orElse (trim (scanLines sectionNames None lines EmptyString false))
         noInformation.

Definition diagnosisNames : list string := ["diagnosis"; "assessment"].
Definition findingsNames : list string := ["document findings"; "text findings"].
Definition recommendationNames : list string :=
  ["recommendation"; "treatment"; "plan"].

(** No line of [lines] starts a section named in [names]. *)
Definition noHeadingLine (names : list string) (lines : list string) : bool :=
  forallb (fun l => negb (isTargetSection names (toLowerCase l))) lines.

(** A reply of the shape the specification's extraction test describes:
    the heading "Diagnosis: X", two indented lines, a blank line, a new
    heading, more text. *)
Definition stableReply : string :=
  join nl [ "Diagnosis: X"; "  Assessment: stable"; "  Rest for two weeks";
            EmptyString; "Recommendations:"; "Follow up in a month" ].

End Extract.

(** ** The report analyzer's data (ReportAnalyzer.tsx) *)

Module Analyzer.
Import Js Extract.

(** A value produced by [JSON.parse]. *)
#[warnings="-register-all"]
Inductive Json : Type :=
| JNull
| JBool (b : bool)
| JNum (q : Q)
| JStr (s : string)
| JArr (items : list Json)
| JObj (fields : list (string * Json)).

(** [obj.key] on a parsed value: the first field of that name. *)
Fixpoint assoc (key : string) (fields : list (string * Json)) : option Json :=
  match fields with
  | [] => None
  | (k, v) :: rest => if String.eqb k key then Some v else assoc key rest
  end.

Definition field (key : string) (v : Json) : option Json :=
  match v with
  | JObj fields => assoc key fields
  | _ => None
  end.

(** A browser [File]: name, declared MIME type, raw bytes. *)
Record File : Type := mkFile {
  name : string;
  type : string;
  bytes : string
}.

(** A [Part] of a completion request; [data] is [undefined] ([None])
    when the data URL has no comma. *)
Inductive Part : Type :=
| TextPart (text : string)
| InlineData (data : option string) (mimeType : string).

Record AnalysisResult : Type := mkResult {
  textFindings : string;
  imageFindings : gmap string Json;
  diagnosis : string;
  recommendations : string
}.

(** The component's [useState] cells. *)
Record State : Type := mkState {
  files : list File;
  patientName : string;
  isAnalyzing : bool;
  error : string;
  result : option AnalysisResult;
  imageAnalysisProgress : gmap string nat
}.

Inductive Exn : Type :=
| ServiceError   (* the completion request rejects or [text()] throws *)
| ReaderError.   (* [reader.result] is null: [.split] throws *)

(** What a submission can touch: the component state, the requests sent
    to the completion service so far, and what went to [console.error]. *)
Record World : Type := mkWorld {
  state : State;
  calls : list (list Part);
  console : list Exn
}.

Inductive Outcome (A : Type) : Type :=
| Ok (a : A)
| Throw (e : Exn).
Arguments Ok {A} a.
Arguments Throw {A} e.

(** State and exceptions. *)
Definition M (A : Type) : Type := World -> Outcome A * World.

Definition ret {A} (a : A) : M A := fun w => (Ok a, w).

Definition bind {A B} (m : M A) (k : A -> M B) : M B :=
  fun w => match m w with
           | (Ok a, w') => k a w'
           | (Throw e, w') => (Throw e, w')
           end.

Definition throw {A} (e : Exn) : M A := fun w => (Throw e, w).

(** [try { body } catch (err) { handler err }]. *)
Definition tryCatch {A} (body : M A) (handler : Exn -> M A) : M A :=
  fun w => match body w with
           | (Ok a, w') => (Ok a, w')
           | (Throw e, w') => handler e w'
           end.

(** [try { body } finally { cleanup }]. *)
Definition tryFinally {A} (body : M A) (cleanup : M unit) : M A :=
  fun w => match body w with
           | (r, w') => match cleanup w' with
                        | (Ok _, w'') => (r, w'')
                        | (Throw e, w'') => (Throw e, w'')
                        end
           end.

Definition modifyState (f : State -> State) : M unit :=
  fun w => (Ok tt, mkWorld (f (state w)) (calls w) (console w)).

#[global] Instance M_ret : MRet M := @ret.
#[global] Instance M_bind : MBind M := fun A B k m => bind m k.

Definition setIsAnalyzing (b : bool) : M unit :=
  modifyState (fun s => mkState (files s) (patientName s) b (error s)
                                (result s) (imageAnalysisProgress s)).
Definition setError (msg : string) : M unit :=
  modifyState (fun s => mkState (files s) (patientName s) (isAnalyzing s) msg
                                (result s) (imageAnalysisProgress s)).
Definition setResult (r : option AnalysisResult) : M unit :=
  modifyState (fun s => mkState (files s) (patientName s) (isAnalyzing s)
                                (error s) r (imageAnalysisProgress s)).
Definition setImageAnalysisProgress (f : gmap string nat -> gmap string nat)
  : M unit :=
  modifyState (fun s => mkState (files s) (patientName s) (isAnalyzing s)
                                (error s) (result s)
                                (f (imageAnalysisProgress s))).
Definition consoleError (e : Exn) : M unit :=
  fun w => (Ok tt, mkWorld (state w) (calls w) (console w ++ [e])%list).

(** *** Fixed texts *)

Definition quoted (s : string) : string := dquote +:+ s +:+ dquote.

Definition overallPrompt (patientName : string) : string :=
  join nl
    [ "Analyze the following medical documents and generate a comprehensive report for patient "
        +:+ quoted patientName +:+ ". ";
      "        The analysis should include:";
      "        1. Summary of findings from documents";
      "        2. Detailed analysis of any medical images provided, including:";
      "           - Description of visible structures and features";
      "           - Any abnormalities or concerning findings";
      "           - Measurements and dimensions if applicable";
      "           - Confidence level in the analysis";
      "           - Specific recommendations for each image";
      "        3. Overall diagnosis based on all information";
      "        4. Comprehensive recommendations for further actions or treatment" ].

Definition imagePrompt : string :=
  join nl
    [ "Analyze this medical image in detail. Provide:";
      "                1. A detailed description of visible structures and features";
      "                2. Any abnormalities or concerning findings";
      "                3. Measurements and dimensions if applicable";
      "                4. Your confidence level in the analysis (0-100)";
      "                5. Specific recommendations for this image";
      "                ";
      "                Format the response as JSON with the following structure:";
      "                {";
      "                  " +:+ quoted "description" +:+ ": "
        +:+ quoted "detailed description" +:+ ",";
      "                  " +:+ quoted "abnormalities" +:+ ": ["
        +:+ quoted "finding1" +:+ ", " +:+ quoted "finding2" +:+ ", ...],";
      "                  " +:+ quoted "measurements" +:+ ": ["
        +:+ quoted "measurement1" +:+ ", " +:+ quoted "measurement2"
        +:+ ", ...],";
      "                  " +:+ quoted "confidence" +:+ ": number,";
      "                  " +:+ quoted "recommendations" +:+ ": "
        +:+ quoted "specific recommendations";
      "                }" ].

#[global] Arguments overallPrompt : simpl never.
#[global] Arguments imagePrompt : simpl never.

Definition validationMessage : string :=
  "Please upload files and enter patient name".
Definition pipelineErrorMessage : string :=
  "Error analyzing documents. Please try again.".
Definition unableToParse : string := "Unable to parse detailed analysis".

Definition noDocumentFindings : string := "No document findings available".
Definition noDiagnosis : string := "No diagnosis available".
Definition noRecommendations : string := "No recommendations available".

(** The object built in the [catch] of the per-image [JSON.parse]. *)
Definition degraded (responseText : string) : Json :=
  JObj [ ("description", JStr responseText);
         ("abnormalities", JArr []);
         ("measurements", JArr []);
         ("confidence", JNum 0);
         ("recommendations", JStr unableToParse) ].

(** A parsed object of the shape the image prompt asks for
    ([AnalysisResult['imageFindings'][string]]): the five fields, in the
    order of the prompt. *)
Definition imageFindingsObject (description : string)
           (abnormalities measurements : list string) (confidence : Q)
           (recommendations : string) : Json :=
  JObj [ ("description", JStr description);
         ("abnormalities", JArr (map JStr abnormalities));
         ("measurements", JArr (map JStr measurements));
         ("confidence", JNum confidence);
         ("recommendations", JStr recommendations) ].

(** The keys of an object, in order. *)
Definition keysOf (v : Json) : list string :=
  match v with
  | JObj fields => map fst fields
  | _ => []
  end.

(** [extractTextFromPDF]: the mock extraction; it never rejects. *)
Definition extractTextFromPDF (file : File) : string :=
  "Mock extracted text from " +:+ name file.

(** The inline part built from a data URL. *)
Definition imagePartOf (url : string) (file : File) : Part :=
  InlineData (split "," url !! 1%nat) (type file).

(** *** The submission pipeline ([analyzeContent]) *)

Section Pipeline.

(** The completion service, as seen by one submission: the reply text
    of the request number [n] (counting from 0), or [None] when the
    request rejects or [response.text()] throws. *)
Variable generateContent : nat -> list Part -> option string.

(** [FileReader.readAsDataURL]: the data URL, or [None] when the reader
    ends with a null result. *)
Variable readAsDataURL : File -> option string.

(** [JSON.parse]: [None] when it throws a [SyntaxError]. *)
Variable JSON_parse : string -> option Json.

(** [model.generateContent] followed by [response.text()]. *)
Definition callModel (parts : list Part) : M string :=
  fun w =>
    let w' := mkWorld (state w) (calls w ++ [parts])%list (console w) in
    match generateContent (length (calls w)) parts with
    | Some text => (Ok text, w')
    | None => (Throw ServiceError, w')
    end.

Definition fileToGenerativePart (file : File) : M Part :=
  match readAsDataURL file with
  | Some url => mret (imagePartOf url file)
  | None => throw ReaderError
  end.

(** The inner [try { JSON.parse } catch] and the assignment
    [imageAnalysis[file.name] = ...]. *)
Definition storeAnalysis (file : File) (responseText : string)
           (imageAnalysis : gmap string Json) : gmap string Json :=
  match JSON_parse responseText with
  | Some analysis => <[name file := analysis]> imageAnalysis
  | None => <[name file := degraded responseText]> imageAnalysis
  end.

(** The [for (const [index, file] of imageFiles.entries())] loop;
    [total] is [imageFiles.length], [parts] and [imageAnalysis] are the
    two objects the loop mutates.  The enclosing
    [if (imageFiles.length > 0)] needs no case of its own: on an empty
    list the loop does nothing. *)
Fixpoint analyzeImages (total index : nat) (imageFiles : list File)
         (parts : list Part) (imageAnalysis : gmap string Json)
  : M (list Part * gmap string Json) :=
  match imageFiles with
  | [] => mret (parts, imageAnalysis)
  | file :: rest =>
      setImageAnalysisProgress (fun prev => <[name file := 0%nat]> prev);;
      imagePart ← fileToGenerativePart file;
      let parts :=
        (parts ++ [TextPart ("Analyzing medical image " +:+ ofNat (index + 1)
                             +:+ " of " +:+ ofNat total +:+ ": "
                             +:+ name file)]
               ++ [imagePart])%list in
      responseText ← callModel [TextPart imagePrompt; imagePart];
      let imageAnalysis := storeAnalysis file responseText imageAnalysis in
      setImageAnalysisProgress (fun prev => <[name file := 100%nat]> prev);;
      analyzeImages total (S index) rest parts imageAnalysis
  end.

Definition isPdf (file : File) : bool := String.eqb (type file) "application/pdf".
Definition isImage (file : File) : bool := startsWith (type file) "image/".

Definition findingsGate (responseText : string) : bool :=
  includes (toLowerCase responseText) "document findings"
  || includes (toLowerCase responseText) "text findings".
Definition diagnosisGate (responseText : string) : bool :=
  includes (toLowerCase responseText) "diagnosis".
Definition recommendationsGate (responseText : string) : bool :=
  includes (toLowerCase responseText) "recommendation"
  || includes (toLowerCase responseText) "treatment".

(** "Parse the AI response into structured sections". *)
Definition buildResult (responseText : string)
           (imageAnalysis : gmap string Json) : AnalysisResult :=
  let textFindings :=
    if findingsGate responseText
    then extractSection responseText findingsNames
    else noDocumentFindings in
  let diagnosis :=
    if diagnosisGate responseText
    then extractSection responseText diagnosisNames
    else noDiagnosis in
  let recommendations :=
    if recommendationsGate responseText
    then extractSection responseText recommendationNames
    else noRecommendations in
  mkResult textFindings imageAnalysis diagnosis recommendations.

(** The body of the outer [try]. *)
Definition tryBody (files : list File) (patientName : string) : M unit :=
  let parts := [TextPart (overallPrompt patientName)] in
  let pdfFiles := List.filter isPdf files in
  let parts :=
    if (0 <? length pdfFiles)%nat then
      let extractedTexts := map extractTextFromPDF pdfFiles in
      (parts ++ [TextPart ("Text extracted from PDF documents:" +:+ nl
                           +:+ join (nl +:+ nl) extractedTexts)])%list
    else parts in
  let imageFiles := List.filter isImage files in
  '(parts, imageAnalysis) ← analyzeImages (length imageFiles) 0 imageFiles parts ∅;
  responseText ← callModel parts;
  setResult (Some (buildResult responseText imageAnalysis)).

(** [analyzeContent]; [files] and [patientName] are the values the
    handler closed over when it was invoked. *)
Definition analyzeContent : M unit :=
  fun w =>
    let files := files (state w) in
    let patientName := patientName (state w) in
    (if (length files =? 0)%nat || negb (truthy patientName) then
       setError validationMessage
     else
       setIsAnalyzing true;;
       setError EmptyString;;
       tryFinally
         (tryCatch (tryBody files patientName)
                   (fun err => setError pipelineErrorMessage;;
                               consoleError err))
         (setIsAnalyzing false)) w.

End Pipeline.

(** *** Vocabulary for the properties *)

(** [keeps w w']: between [w] and [w'] only the progress indicator and
    the log of requests may have changed. *)
Definition keeps (w w' : World) : Prop :=
  files (state w') = files (state w) /\
  patientName (state w') = patientName (state w) /\
  isAnalyzing (state w') = isAnalyzing (state w) /\
  error (state w') = error (state w) /\
  result (state w') = result (state w) /\
  console w' = console w.

(** A computation that, however it ends, [keeps] the world. *)
Definition quiet {A} (m : M A) : Prop :=
  forall w r w', m w = (r, w') -> keeps w w'.

(** The world in which the body of the [try] starts:
    [setIsAnalyzing(true); setError('')] have run. *)
Definition started (w : World) : World :=
  snd ((setIsAnalyzing true;; setError EmptyString) w).

(** The parts pushed for the image at position [index]. *)
Definition imageParts (total index : nat) (url : string) (file : File)
  : list Part :=
  [ TextPart ("Analyzing medical image " +:+ ofNat (index + 1)
              +:+ " of " +:+ ofNat total +:+ ": " +:+ name file);
    imagePartOf url file ].

(** The world after one image went through: progress at 100, one more
    request in the log. *)
Definition afterImage (url : string) (file : File) (w : World) : World :=
  mkWorld
    (mkState (files (state w)) (patientName (state w))
             (isAnalyzing (state w)) (error (state w)) (result (state w))
             (<[name file := 100%nat]>
                (<[name file := 0%nat]> (imageAnalysisProgress (state w)))))
    (calls w ++ [[TextPart imagePrompt; imagePartOf url file]])
    (console w).

(** The three top-level text fields. *)
Inductive TopField : Type := TextFindings | Diagnosis | Recommendations.

(** The names [analyzeContent] passes to [extractSection] for a field. *)
Definition fieldNames (f : TopField) : list string :=
  match f with
  | TextFindings => findingsNames
  | Diagnosis => diagnosisNames
  | Recommendations => recommendationNames
  end.

(** The [includes] test that guards the call. *)
Definition fieldGate (f : TopField) : string -> bool :=
  match f with
  | TextFindings => findingsGate
  | Diagnosis => diagnosisGate
  | Recommendations => recommendationsGate
  end.

(** The value the field is initialised with. *)
Definition fieldDefault (f : TopField) : string :=
  match f with
  | TextFindings => noDocumentFindings
  | Diagnosis => noDiagnosis
  | Recommendations => noRecommendations
  end.

Definition fieldOf (f : TopField) (r : AnalysisResult) : string :=
  match f with
  | TextFindings => textFindings r
  | Diagnosis => diagnosis r
  | Recommendations => recommendations r
  end.

End Analyzer.

(** ** The report renderer (ReportAnalyzer.tsx, [generatePDF]) *)

Module Renderer.
Import Js Analyzer.

(** The calls made on the jsPDF document, in order. *)
Inductive DrawCmd : Type :=
| SetFillColor (r g b : Z)
| Rect (x y : Z) (w : Q) (h : Z) (style : string)
| SetTextColor (r g b : Z)
| SetFontSize (size : Z)
| SetFont (fontStyle : string)              (* [setFont(undefined, style)] *)
| Text (text : string) (x y : Z)
| TextLines (lines : list string) (x y : Z)
| AddPage
| Save (filename : string).

Definition isAddPage (c : DrawCmd) : bool :=
  match c with AddPage => true | _ => false end.

(** Number of [addPage] calls in a command sequence. *)
Fixpoint pageBreaks (cmds : list DrawCmd) : nat :=
  match cmds with
  | [] => 0
  | c :: rest => (if isAddPage c then 1 else 0) + pageBreaks rest
  end.

Section Render.

(** [doc.internal.pageSize.getWidth()]. *)
Variable pageWidth : Q.

(** [doc.splitTextToSize] on a string, and on the [imageFindings]
    object the source passes for the image section. *)
Variable splitTextToSize : string -> Q -> list string.
Variable splitObjectToSize : gmap string Json -> Q -> list string.

(** The five calls that draw a bold section title at [yPos]. *)
Definition sectionTitle (title : string) (yPos : Z) : list DrawCmd :=
  [ SetFontSize 14; SetFont "bold"; Text title 20 yPos;
    SetFont "normal"; SetFontSize 12 ].

(** "Add a new page if needed": the commands issued and the new [yPos]. *)
Definition newPageIfNeeded (yPos : Z) : list DrawCmd * Z :=
  if (230 <? yPos)%Z then ([AddPage], 20%Z) else ([], yPos).

(** [yPos] when the check before "Diagnosis" runs. *)
Definition yBeforeDiagnosis (result : AnalysisResult) : Z :=
  let yPos := (50 + 30)%Z in
  let textLines := splitTextToSize (textFindings result) (pageWidth - 40) in
  let yPos := (yPos + (10 + Z.of_nat (length textLines) * 7))%Z in
  let imageLines := splitObjectToSize (imageFindings result) (pageWidth - 40) in
  (yPos + (10 + Z.of_nat (length imageLines) * 7))%Z.

(** [yPos] when the check before "Recommendations" runs. *)
Definition yBeforeRecommendations (result : AnalysisResult) : Z :=
  let yPos := snd (newPageIfNeeded (yBeforeDiagnosis result)) in
  let diagnosisLines := splitTextToSize (diagnosis result) (pageWidth - 40) in
  (yPos + (10 + Z.of_nat (length diagnosisLines) * 7))%Z.

(** [generatePDF]: [result] and [patientName] are the component's state,
    [today] is [format(new Date(), 'MMMM d, yyyy')]. *)
Definition generatePDF (result : option AnalysisResult)
           (patientName today : string) : list DrawCmd :=
  match result with
  | None => []
  | Some result =>
      (* Header, then reset text colour for content *)
      let doc := [ SetFillColor 41 98 255; Rect 0 0 pageWidth 40 "F";
                   SetTextColor 255 255 255; SetFontSize 24;
                   Text "AI Health Report" 20 25;
                   SetTextColor 0 0 0; SetFontSize 12 ] in
      (* Metadata *)
      let yPos := 50%Z in
      let doc := doc ++ [ Text ("Patient Name: " +:+ patientName) 20 yPos;
                          Text ("Date: " +:+ today) 20 (yPos + 10) ] in
      (* Content sections *)
      let yPos := (yPos + 30)%Z in
      let doc := doc ++ sectionTitle "Findings from Documents" yPos in
      let textLines := splitTextToSize (textFindings result) (pageWidth - 40) in
      let doc := doc ++ [TextLines textLines 20 (yPos + 10)] in
      let yPos := (yPos + (10 + Z.of_nat (length textLines) * 7))%Z in
      let doc := doc ++ sectionTitle "Image Analysis" yPos in
      let imageLines := splitObjectToSize (imageFindings result) (pageWidth - 40) in
      let doc := doc ++ [TextLines imageLines 20 (yPos + 10)] in
      let yPos := (yPos + (10 + Z.of_nat (length imageLines) * 7))%Z in
      (* Add a new page if needed *)
      let '(page, yPos) := newPageIfNeeded yPos in
      let doc := doc ++ page in
      let doc := doc ++ sectionTitle "Diagnosis" yPos in
      let diagnosisLines := splitTextToSize (diagnosis result) (pageWidth - 40) in
      let doc := doc ++ [TextLines diagnosisLines 20 (yPos + 10)] in
      let yPos := (yPos + (10 + Z.of_nat (length diagnosisLines) * 7))%Z in
      (* Add a new page if needed *)
      let '(page, yPos) := newPageIfNeeded yPos in
      let doc := doc ++ page in
      let doc := doc ++ sectionTitle "Recommendations" yPos in
      let recommendationLines :=
        splitTextToSize (recommendations result) (pageWidth - 40) in
      let doc := doc ++ [TextLines recommendationLines 20 (yPos + 10)] in
      doc ++ [Save (patientName +:+ "_AI_Health_Report.pdf")]
  end%list.

(** Everything drawn before the first cursor test. *)
Definition beforeDiagnosis (r : AnalysisResult) (patientName today : string)
  : list DrawCmd :=
  let textLines := splitTextToSize (textFindings r) (pageWidth - 40) in
  let imageLines := splitObjectToSize (imageFindings r) (pageWidth - 40) in
  let y := (80 + (10 + Z.of_nat (length textLines) * 7))%Z in
  [ SetFillColor 41 98 255; Rect 0 0 pageWidth 40 "F";
    SetTextColor 255 255 255; SetFontSize 24;
    Text "AI Health Report" 20 25;
    SetTextColor 0 0 0; SetFontSize 12;
    Text ("Patient Name: " +:+ patientName) 20 50;
    Text ("Date: " +:+ today) 20 60 ]
    ++ sectionTitle "Findings from Documents" 80
    ++ [TextLines textLines 20 90]
    ++ sectionTitle "Image Analysis" y
    ++ [TextLines imageLines 20 (y + 10)].

(** The file [doc.save] hands to the browser holds, besides the drawing,
    what jsPDF gives every [new jsPDF()] that the caller does not set: a
    file identifier, drawn at random, and the creation time.  [generatePDF]
    makes no call that sets either (none is among its [DrawCmd]s), so both
    are the library's for that run: [fileId] and [creationDate] are inputs
    of a rendering like [today]. *)
Record SavedFile : Type := mkSavedFile {
  drawing : list DrawCmd;
  fileId : string;
  creationDate : string
}.

(** What a click on "Download PDF" saves, if anything. *)
Definition download (result : option AnalysisResult)
           (patientName today fileId creationDate : string)
  : option SavedFile :=
  match result with
  | None => None
  | Some _ =>
      Some (mkSavedFile (generatePDF result patientName today)
                        fileId creationDate)
  end.

End Render.

(** The page break issued when the cursor test is [b]. *)
Definition breakIf (b : bool) : list DrawCmd :=
  if b then [AddPage] else [].

End Renderer.

(** ** The dashboard shell (App.tsx, [AuthenticatedApp]) *)

Module Shell.

(** The six "which panel is open" flags. *)
Record Panels : Type := mkPanels {
  showProfile : bool;
  showBlockchain : bool;
  showCommunity : bool;
  showHandTracker : bool;
  showAdminControl : bool;
  showReportAnalyzer : bool
}.

(** The [useState(false)] initial values. *)
Definition initial : Panels := mkPanels false false false false false false.

(** Each handler reads its own flag from the render it was created in
    and sets all six cells. *)
Definition toggleProfile (p : Panels) : Panels :=
  mkPanels (negb (showProfile p)) false false false false false.
Definition toggleBlockchain (p : Panels) : Panels :=
  mkPanels false (negb (showBlockchain p)) false false false false.
Definition toggleCommunity (p : Panels) : Panels :=
  mkPanels false false (negb (showCommunity p)) false false false.
Definition toggleHandTracker (p : Panels) : Panels :=
  mkPanels false false false (negb (showHandTracker p)) false false.
Definition toggleAdminControl (p : Panels) : Panels :=
  mkPanels false false false false (negb (showAdminControl p)) false.
Definition toggleReportAnalyzer (p : Panels) : Panels :=
  mkPanels false false false false false (negb (showReportAnalyzer p)).

(** [onClose={() => setShowProfile(false)}], handed to [Profile]. *)
Definition closeProfile (p : Panels) : Panels :=
  mkPanels false (showBlockchain p) (showCommunity p) (showHandTracker p)
           (showAdminControl p) (showReportAnalyzer p).

Inductive Event : Type :=
| ToggleProfile | ToggleBlockchain | ToggleCommunity
| ToggleHandTracker | ToggleAdminControl | ToggleReportAnalyzer
| CloseProfile.

Definition handle (p : Panels) (e : Event) : Panels :=
  match e with
  | ToggleProfile => toggleProfile p
  | ToggleBlockchain => toggleBlockchain p
  | ToggleCommunity => toggleCommunity p
  | ToggleHandTracker => toggleHandTracker p
  | ToggleAdminControl => toggleAdminControl p
  | ToggleReportAnalyzer => toggleReportAnalyzer p
  | CloseProfile => closeProfile p
  end.

(** The component re-renders between events: every handler runs on the
    state the previous one left. *)
Definition run (events : list Event) (p : Panels) : Panels :=
  fold_left handle events p.

(** The panels, and the flag and the toggle that belong to each. *)
Inductive Panel : Type :=
| Profile | Blockchain | Community | HandTracker | AdminControl | ReportAnalyzer.

Definition isOpen (k : Panel) (p : Panels) : bool :=
  match k with
  | Profile => showProfile p
  | Blockchain => showBlockchain p
  | Community => showCommunity p
  | HandTracker => showHandTracker p
  | AdminControl => showAdminControl p
  | ReportAnalyzer => showReportAnalyzer p
  end.

Definition toggle (k : Panel) : Panels -> Panels :=
  match k with
  | Profile => toggleProfile
  | Blockchain => toggleBlockchain
  | Community => toggleCommunity
  | HandTracker => toggleHandTracker
  | AdminControl => toggleAdminControl
  | ReportAnalyzer => toggleReportAnalyzer
  end.

Definition flags (p : Panels) : list bool :=
  [ showProfile p; showBlockchain p; showCommunity p;
    showHandTracker p; showAdminControl p; showReportAnalyzer p ].

(** How many panels are flagged open. *)
Definition openCount (p : Panels) : nat :=
  length (List.filter (fun b => b) (flags p)).

End Shell.

(** ** Rewards (the dashboard's [completeTask], [claimReward], [redeemCoupon]) *)

Module Rewards.
Import Js.

Record Coupon : Type := mkCoupon {
  code : string;
  status : string;
  expiry : string
}.

Inductive Module_ : Type := challenges | mealPlanner | goals | journaling.

Record Progress : Type := mkProgress {
  pChallenges : nat;
  pMealPlanner : nat;
  pGoals : nat;
  pJournaling : nat
}.

(** [{ ...prog, [module]: prog[module] + 1 }]. *)
Definition bump (m : Module_) (prog : Progress) : Progress :=
  match m with
  | challenges => mkProgress (pChallenges prog + 1) (pMealPlanner prog)
                             (pGoals prog) (pJournaling prog)
  | mealPlanner => mkProgress (pChallenges prog) (pMealPlanner prog + 1)
                              (pGoals prog) (pJournaling prog)
  | goals => mkProgress (pChallenges prog) (pMealPlanner prog)
                        (pGoals prog + 1) (pJournaling prog)
  | journaling => mkProgress (pChallenges prog) (pMealPlanner prog)
                             (pGoals prog) (pJournaling prog + 1)
  end.

(** The three state cells of the rewards panel.  Points are JavaScript
    numbers holding integers, modelled as [Z]. *)
Record State : Type := mkState {
  userPoints : Z;
  userCoupons : list Coupon;
  moduleProgress : Progress
}.

Definition initial : State := mkState 0 [] (mkProgress 0 0 0 0).

(** Both updates are functional ([pts => pts + 10]). *)
Definition completeTask (m : Module_) (s : State) : State :=
  mkState (userPoints s + 10) (userCoupons s) (bump m (moduleProgress s)).

(** [claimReward]: the guard reads [userPoints] from the render the
    handler was created in ([rendered]); the two updates are functional
    and act on the current cells.  [randomStr] is the four characters
    drawn from [Math.random()], [expiry] the date thirty days ahead. *)
Definition claimReward (userId randomStr expiry : string)
           (rendered : Z) (s : State) : State :=
  if (rendered <? 100)%Z then s
  else
    let code := "HEX-" +:+ userId +:+ "-" +:+ randomStr in
    mkState (userPoints s - 100)
            (userCoupons s ++ [mkCoupon code "active" expiry])
            (moduleProgress s).

(** [redeemCoupon]: marks the coupons of that code as claimed. *)
Definition redeemCoupon (c : string) (s : State) : State :=
  mkState (userPoints s)
          (map (fun k => if String.eqb (code k) c
                         then mkCoupon (code k) "claimed" (expiry k) else k)
               (userCoupons s))
          (moduleProgress s).

Inductive Event : Type :=
| CompleteTask (m : Module_)
| ClaimReward (randomStr expiry : string)
| RedeemCoupon (c : string).

(** One event on a freshly rendered component: the handler's closure
    holds the current cells. *)
Definition handle (userId : string) (s : State) (e : Event) : State :=
  match e with
  | CompleteTask m => completeTask m s
  | ClaimReward randomStr expiry =>
      claimReward userId randomStr expiry (userPoints s) s
  | RedeemCoupon c => redeemCoupon c s
  end.

Definition run (userId : string) (events : list Event) (s : State) : State :=
  fold_left (handle userId) events s.

(** Points are a non-negative multiple of ten. *)
Definition wellFormed (s : State) : Prop :=
  (0 <= userPoints s)%Z /\ (userPoints s mod 10 = 0)%Z.

End Rewards.

(** ** Lines as [extractSection] sees them *)

Module Lines.
Import Js Extract.

(** A line that cannot end a section: it starts one, or it does not look
    like a heading. *)
Definition neverEnds (names : list string) (l : string) : bool :=
  isTargetSection names (toLowerCase l)
  || negb (isPotentialHeading (toLowerCase l)).

(** A line of running text: it neither starts a section nor looks like a
    heading. *)
Definition plainLine (names : list string) (l : string) : bool :=
  negb (isTargetSection names (toLowerCase l))
  && negb (isPotentialHeading (toLowerCase l)).

(** What follows a heading when every later line is running text. *)
Definition tailText (body : list string) : string :=
  fold_right (fun l acc => nl +:+ l +:+ acc) EmptyString body.

End Lines.

(** ** File intake (ReportAnalyzer.tsx, [handleFileChange]) *)

Module Intake.
Import Js Analyzer.

(** The character [c] does not occur in [s]. *)
Definition lacks (c : ascii) (s : string) : bool :=
  forallb (fun x => negb (Ascii.eqb x c)) (list_ascii_of_string s).

(** The files the pipeline looks at: PDFs and images. *)
Definition isSupported (file : File) : bool := isPdf file || isImage file.

(** The world when the turn for [file] stops at an unreadable file:
    only the progress indicator has been reset. *)
Definition stoppedAtRead (file : File) (w : World) : World :=
  snd (setImageAnalysisProgress (fun prev => <[name file := 0%nat]> prev) w).

(** The world when the turn for [file] stops at a failed request: the
    progress indicator has been reset and the request is in the log. *)
Definition stoppedAtRequest (url : string) (file : File) (w : World) : World :=
  mkWorld (state (stoppedAtRead file w))
          (calls w ++ [[TextPart imagePrompt; imagePartOf url file]])
          (console w).

(** The guard of [analyzeContent]. *)
Definition rejected (w : World) : bool :=
  (length (files (state w)) =? 0)%nat || negb (truthy (patientName (state w))).

(** A request of the per-image kind: the image prompt and one inline
    part. *)
Definition isImageRequest (request : list Part) : bool :=
  match request with
  | [TextPart text; InlineData _ _] => String.eqb text imagePrompt
  | _ => false
  end.

(** The parts [tryBody] starts the aggregate request with: the prompt and,
    when there are PDFs, their extracted texts. *)
Definition openingParts (fs : list File) (p : string) : list Part :=
  if (0 <? length (List.filter isPdf fs))%nat
  then [TextPart (overallPrompt p);
        TextPart ("Text extracted from PDF documents:" +:+ nl
                  +:+ join (nl +:+ nl)
                        (map extractTextFromPDF (List.filter isPdf fs)))]
  else [TextPart (overallPrompt p)].

(** The world once [tryBody] has thrown [e] and the [catch] and [finally]
    blocks have run. *)
Definition failed (e : Exn) (w : World) : World :=
  snd ((setError pipelineErrorMessage;; consoleError e;;
        setIsAnalyzing false) w).

Section Intake.

(** [URL.createObjectURL]. *)
Variable createObjectURL : File -> string.

(** [selectedFiles.map(file => file.type.startsWith('image/') ?
      URL.createObjectURL(file) : '').filter(Boolean)]. *)
Definition previewsOf (selectedFiles : list File) : list string :=
  List.filter truthy
    (map (fun file => if startsWith (type file) "image/"
                      then createObjectURL file else EmptyString)
         selectedFiles).

(** [handleFileChange]: [selection] is [event.target.files], [None] when it
    is null.  The handler writes the [files] cell and the [previewUrls]
    cell; the second component is the new [previewUrls]. *)
Definition handleFileChange (selection : option (list File)) (s : State)
  : State * list string :=
  let selectedFiles := default [] selection in
  (mkState selectedFiles (patientName s) (isAnalyzing s) (error s)
           (result s) (imageAnalysisProgress s),
   previewsOf selectedFiles).

End Intake.

(** A file reader that always ends with a null result. *)
Definition neverReads (_ : File) : option string := None.

End Intake.

(** ** What the renderer hands to the document (ReportAnalyzer.tsx) *)

Module Drawing.
Import Js Analyzer Renderer.

Definition isSave (c : DrawCmd) : bool :=
  match c with Save _ => true | _ => false end.

(** The title of one of the two sections that follow a cursor test. *)
Definition isCheckedTitle (title : string) : bool :=
  String.eqb title "Diagnosis" || String.eqb title "Recommendations".

(** The cursor for a section title after its test. *)
Definition titleY (y : Z) : Z := if (230 <? y)%Z then 20%Z else y.

End Drawing.

(** ** What the shell shows (App.tsx, the [return] of [AuthenticatedApp]) *)

Module ShellView.
Import Shell.

(** The component rendered in [<main>]. *)
Inductive View : Type :=
| ProfileView | BlockchainDemoView | CommunityView | HandRotationTrackerView
| AdminControlView | ReportAnalyzerView | AdminDashboardView | DashboardView.

(** The conditional chain in [<main>]; [isAdmin] is
    [user?.role === 'admin']. *)
Definition mainView (isAdmin : bool) (p : Panels) : View :=
  if showProfile p then ProfileView
  else if showBlockchain p then BlockchainDemoView
  else if showCommunity p then CommunityView
  else if showHandTracker p then HandRotationTrackerView
  else if showAdminControl p then AdminControlView
  else if showReportAnalyzer p then ReportAnalyzerView
  else if isAdmin then AdminDashboardView
  else DashboardView.

(** The component each flag stands for. *)
Definition panelView (k : Panel) : View :=
  match k with
  | Profile => ProfileView
  | Blockchain => BlockchainDemoView
  | Community => CommunityView
  | HandTracker => HandRotationTrackerView
  | AdminControl => AdminControlView
  | ReportAnalyzer => ReportAnalyzerView
  end.

(** What is shown when no flag is set. *)
Definition homeView (isAdmin : bool) : View :=
  if isAdmin then AdminDashboardView else DashboardView.

(** The controls the rendered page offers: the "Admin Control" button is
    rendered for admins only, and the close button belongs to the
    [Profile] component, which is rendered when [showProfile] holds; the
    other five buttons are always there. *)
Definition offered (isAdmin : bool) (p : Panels) (e : Event) : bool :=
  match e with
  | ToggleAdminControl => isAdmin
  | CloseProfile => showProfile p
  | _ => true
  end.

(** Every event of the sequence is offered when it happens. *)
Fixpoint allOffered (isAdmin : bool) (events : list Event) (p : Panels) : bool :=
  match events with
  | [] => true
  | e :: rest => offered isAdmin p e && allOffered isAdmin rest (handle p e)
  end.

End ShellView.

(** ** Coupons and points (vocabulary for the rewards panel) *)

Module Coupons.
Import Js Rewards.

(** Tasks completed so far, over the four modules. *)
Definition tasksDone (s : State) : Z :=
  Z.of_nat (pChallenges (moduleProgress s) + pMealPlanner (moduleProgress s)
            + pGoals (moduleProgress s) + pJournaling (moduleProgress s)).

(** Points held plus points spent on coupons equal ten per task. *)
Definition balanced (s : State) : Prop :=
  (userPoints s + 100 * Z.of_nat (length (userCoupons s)) = 10 * tasksDone s)%Z.

(** A coupon as the code issues and redeems them. *)
Definition wellFormedCoupon (userId : string) (k : Coupon) : Prop :=
  (status k = "active" \/ status k = "claimed")
  /\ startsWith (code k) ("HEX-" +:+ userId +:+ "-") = true.

End Coupons.

(** ** Cleaning a reply for display (the dashboard's [formatAIResponse]) *)

Module AiText.
Import Js.

(** [forallb] over the characters of a string. *)
Definition allChars (P : ascii -> bool) (s : string) : bool :=
  forallb P (list_ascii_of_string s).

Definition isNot (c : ascii) (x : ascii) : bool := negb (Ascii.eqb x c).

(** [s.replace(/\*+/g, '')]: every asterisk goes. *)
Fixpoint removeStars (s : string) : string :=
  match s with
  | EmptyString => EmptyString
  | String c s' => if Ascii.eqb c "*" then removeStars s'
                   else String c (removeStars s')
  end.

(** [s.slice(n)]. *)
Fixpoint dropChars (n : nat) (s : string) : string :=
  match n, s with
  | S k, String _ s' => dropChars k s'
  | _, _ => s
  end.

(** For [[^\]]+\]] at the start of [s]: the number of characters before
    the first closing bracket, [None] when there is no closing bracket. *)
Fixpoint runToBracket (s : string) : option nat :=
  match s with
  | EmptyString => None
  | String c s' => if Ascii.eqb c "]" then Some 0
                   else option_map S (runToBracket s')
  end.

(** The length of the match of [/\[https?:\/\/[^\]]+\]/] at the start of
    [s], if there is one: the opening bracket and scheme (8 or 9
    characters), at least one character other than a closing bracket, and
    the closing bracket. *)
Definition linkLength (s : string) : option nat :=
  let scheme :=
    if startsWith s "[https://" then Some 9
    else if startsWith s "[http://" then Some 8
    else None in
  match scheme with
  | Some k =>
      match runToBracket (dropChars k s) with
      | Some (S n) => Some (k + S n + 1)
      | _ => None
      end
  | None => None
  end.

(** [s.replace(/\[https?:\/\/[^\]]+\]/g, '')]: the string is scanned from
    the left; where the pattern matches, the match is dropped and the scan
    goes on behind it.  [skip] counts the characters of a match still to
    be dropped. *)
Fixpoint removeLinks (skip : nat) (s : string) : string :=
  match s with
  | EmptyString => EmptyString
  | String c s' =>
      match skip with
      | S k => removeLinks k s'
      | O =>
          match linkLength s with
          | Some (S n) => removeLinks n s'
          | _ => String c (removeLinks 0 s')
          end
      end
  end.

Definition formatAIResponse (response : string) : string :=
  join nl
    (List.filter truthy
       (map trim (split LF (removeLinks 0 (removeStars response))))).

(** The lines [formatAIResponse] keeps. *)
Definition keptLines (response : string) : list string :=
  List.filter truthy
    (map trim (split LF (removeLinks 0 (removeStars response)))).

End AiText.

(** ** The dashboard (the [Dashboard] component) *)

Module Dashboard.
Import Js AiText.

(** *** The user id behind the coupon codes *)

Definition isAlnum (c : ascii) : bool :=
  let n := nat_of_ascii c in
  ((48 <=? n)%nat && (n <=? 57)%nat)
  || ((65 <=? n)%nat && (n <=? 90)%nat)
  || ((97 <=? n)%nat && (n <=? 122)%nat).

Definition isUpperOrDigit (c : ascii) : bool :=
  let n := nat_of_ascii c in
  ((48 <=? n)%nat && (n <=? 57)%nat) || ((65 <=? n)%nat && (n <=? 90)%nat).

(** [s.replace(/[^a-zA-Z0-9]/g, '')]. *)
Fixpoint keepAlnum (s : string) : string :=
  match s with
  | EmptyString => EmptyString
  | String c s' => if isAlnum c then String c (keepAlnum s') else keepAlnum s'
  end.

(** [toUpperCase] on the letters a-z; the source applies it to a string
    of ASCII letters and digits only. *)
Definition upperChar (c : ascii) : ascii :=
  let n := nat_of_ascii c in
  if (97 <=? n)%nat && (n <=? 122)%nat then ascii_of_nat (n - 32) else c.

Fixpoint toUpperCase (s : string) : string :=
  match s with
  | EmptyString => EmptyString
  | String c s' => String (upperChar c) (toUpperCase s')
  end.

(** [user?.email ? user.email.replace(...).toUpperCase() : 'USER'];
    [email] is [None] when there is no user or no email. *)
Definition userIdOf (email : option string) : string :=
  match email with
  | Some e => if truthy e then toUpperCase (keepAlnum e) else "USER"
  | None => "USER"
  end.

(** *** Journal, challenges and rewards *)

Record Challenge : Type := mkChallenge {
  chId : Z;
  day : Z;
  activity : string;
  completed : bool
}.

Record JournalEntry : Type := mkEntry {
  timestamp : string;
  entry : string
}.

(** What [showNotification] is called with by the handlers below: the
    check mark and "Entry Saved Successfully", and "Coupon <code> applied
    to your Hexpertify booking!", both of type 'success'. *)
Inductive Notice : Type :=
| EntrySaved
| CouponApplied (code : string).

(** The cells these handlers read and write; [confettiShots] counts the
    calls of [confetti]. *)
Record State : Type := mkState {
  rewards : Rewards.State;
  journalEntry : string;
  journalEntries : list JournalEntry;
  challenges : list Challenge;
  notification : option Notice;
  confettiShots : nat
}.

Definition initialChallenges : list Challenge :=
  [ mkChallenge 1 1 "Take a 5-minute mindful walk" false;
    mkChallenge 2 2 "Write three positive affirmations" false;
    mkChallenge 3 3 "Practice deep breathing for 2 minutes" false;
    mkChallenge 4 4 "List three things you're grateful for" false;
    mkChallenge 5 5 "Do a quick body scan meditation" false;
    mkChallenge 6 6 "Share a kind message with someone" false;
    mkChallenge 7 7 "Try a new relaxation technique" false ].

Definition initial : State :=
  mkState Rewards.initial EmptyString [] initialChallenges None 0.

(** The test in the [map] callback of [toggleChallenge]. *)
Definition toComplete (id : Z) (challenge : Challenge) : bool :=
  (chId challenge =? id)%Z && negb (completed challenge).

(** [toggleChallenge]: the challenges of that id that are not completed
    become completed, with one [confetti] call each; then
    [completeTask('challenges')], whatever the [map] did. *)
Definition toggleChallenge (id : Z) (s : State) : State :=
  mkState (Rewards.completeTask Rewards.challenges (rewards s))
          (journalEntry s)
          (journalEntries s)
          (map (fun challenge =>
                  if toComplete id challenge
                  then mkChallenge (chId challenge) (day challenge)
                                   (activity challenge) true
                  else challenge)
               (challenges s))
          (notification s)
          (confettiShots s + length (List.filter (toComplete id) (challenges s))).

(** [onChange={(e) => setJournalEntry(e.target.value)}]. *)
Definition setJournalEntry (text : string) (s : State) : State :=
  mkState (rewards s) text (journalEntries s) (challenges s)
          (notification s) (confettiShots s).

(** The [onresult] callback of the voice recognition, for the journal:
    [prev + (prev ? ' ' : '') + transcript]. *)
Definition dictate (transcript : string) (s : State) : State :=
  setJournalEntry (journalEntry s
                   +:+ (if truthy (journalEntry s) then " " else EmptyString)
                   +:+ transcript) s.

(** [handleJournalSubmit]; [now] is [format(new Date(), 'yyyy-MM-dd HH:mm')]. *)
Definition handleJournalSubmit (now : string) (s : State) : State :=
  if truthy (trim (journalEntry s)) then
    mkState (Rewards.completeTask Rewards.journaling (rewards s))
            EmptyString
            (mkEntry now (journalEntry s) :: journalEntries s)
            (challenges s)
            (Some EntrySaved)
            (confettiShots s)
  else s.

Definition withRewards (f : Rewards.State -> Rewards.State) (s : State) : State :=
  mkState (f (rewards s)) (journalEntry s) (journalEntries s) (challenges s)
          (notification s) (confettiShots s).

(** [redeemCoupon] with its notification. *)
Definition redeemCoupon (code : string) (s : State) : State :=
  mkState (Rewards.redeemCoupon code (rewards s)) (journalEntry s)
          (journalEntries s) (challenges s) (Some (CouponApplied code))
          (confettiShots s).

(** The events of these handlers. *)
Inductive Event : Type :=
| TypeJournal (text : string)
| Dictate (transcript : string)
| SubmitJournal (now : string)
| ToggleChallenge (id : Z)
| ClaimReward (randomStr expiry : string)
| RedeemCoupon (code : string).

(** One event on a freshly rendered component. *)
Definition handle (userId : string) (s : State) (e : Event) : State :=
  match e with
  | TypeJournal text => setJournalEntry text s
  | Dictate transcript => dictate transcript s
  | SubmitJournal now => handleJournalSubmit now s
  | ToggleChallenge id => toggleChallenge id s
  | ClaimReward randomStr expiry =>
      withRewards (fun r => Rewards.claimReward userId randomStr expiry
                                                (Rewards.userPoints r) r) s
  | RedeemCoupon code => redeemCoupon code s
  end.

Definition run (userId : string) (events : list Event) (s : State) : State :=
  fold_left (handle userId) events s.

(** How many challenges are completed (the "n/7 days" display). *)
Definition completedCount (s : State) : nat :=
  length (List.filter completed (challenges s)).

(** What the challenge cells keep. *)
Definition challengesInOrder (s : State) : Prop :=
  map chId (challenges s) = [1; 2; 3; 4; 5; 6; 7]%Z
  /\ confettiShots s = completedCount s
  /\ completedCount s
     <= Rewards.pChallenges (Rewards.moduleProgress (rewards s)).

(** What the journal cells keep. *)
Definition journalInOrder (s : State) : Prop :=
  Forall (fun e => trim (entry e) <> EmptyString) (journalEntries s)
  /\ length (journalEntries s)
     = Rewards.pJournaling (Rewards.moduleProgress (rewards s)).

(** *** Asking the assistant *)

(** The cells of the question box and the mood check-in. *)
Record Assistant : Type := mkAssistant {
  mood : string;
  moodNote : string;
  medicalQuestion : string;
  aiResponse : string;
  isLoading : bool
}.

(** The assistant's cells, the prompts sent so far, and the number of
    [console.error] calls. *)
Record Desk : Type := mkDesk {
  cells : Assistant;
  prompts : list string;
  errorsLogged : nat
}.

Definition apology : string :=
  "Sorry, there was an error processing your request.".

Definition moodPrompt (mood moodNote : string) : string :=
  join nl
    [ "I'm feeling " +:+ mood +:+ ". Additional context: " +:+ moodNote +:+ ". ";
      "        Suggest mindfulness activities, coping strategies, and a daily affirmation. ";
      "        Be empathetic and supportive. Keep the response concise." ].

Definition medicalPrompt (medicalQuestion : string) : string :=
  join nl
    [ "Answer this medical question using verified sources and simple language: "
        +:+ medicalQuestion;
      "        Keep the response concise and easy to understand." ].

Section Asking.

(** The completion service for a text prompt: the reply to request number
    [n], or [None] when the request rejects or [text()] throws. *)
Variable generateContent : nat -> string -> option string.

(** [askAI]. *)
Definition askAI (prompt : string) (d : Desk) : Desk :=
  let a := cells d in
  let answered reply :=
    mkAssistant (mood a) (moodNote a) (medicalQuestion a) reply false in
  match generateContent (length (prompts d)) prompt with
  | Some text =>
      mkDesk (answered (formatAIResponse text))
             (prompts d ++ [prompt]) (errorsLogged d)
  | None =>
      mkDesk (answered apology) (prompts d ++ [prompt]) (errorsLogged d + 1)
  end.

(** [handleMoodSubmit]. *)
Definition handleMoodSubmit (d : Desk) : Desk :=
  if truthy (mood (cells d))
  then askAI (moodPrompt (mood (cells d)) (moodNote (cells d))) d
  else d.

(** [handleMedicalQuestion]. *)
Definition handleMedicalQuestion (d : Desk) : Desk :=
  if truthy (trim (medicalQuestion (cells d)))
  then askAI (medicalPrompt (medicalQuestion (cells d))) d
  else d.

End Asking.

End Dashboard.

(** ** The health profile form (the [HealthProfile] component) *)

Module HealthProfile.

(** [nextStep] and [prevStep], as updates of [currentStep]. *)
Definition nextStep (prev : Z) : Z := Z.min (prev + 1) 6.
Definition prevStep (prev : Z) : Z := Z.max (prev - 1) 1.

Inductive Click : Type := Next | Previous.

Definition press (step : Z) (c : Click) : Z :=
  match c with
  | Next => nextStep step
  | Previous => prevStep step
  end.

(** The buttons as rendered: "Next" is there while [currentStep < 5] (from
    step 5 on the submit button takes its place), "Previous" is disabled at
    step 1. *)
Definition enabled (step : Z) (c : Click) : bool :=
  match c with
  | Next => (step <? 5)%Z
  | Previous => negb (step =? 1)%Z
  end.

Definition initialStep : Z := 1.

Definition walk (clicks : list Click) (step : Z) : Z :=
  fold_left press clicks step.

(** Every click of the sequence is on a button that is enabled then. *)
Fixpoint allEnabled (clicks : list Click) (step : Z) : bool :=
  match clicks with
  | [] => true
  | c :: rest => enabled step c && allEnabled rest (press step c)
  end.

End HealthProfile.

(** ** Sample inputs *)

Module Samples.
Import Js Analyzer.

Definition scan : File := mkFile "scan.png" "image/png" "PNG".
Definition letter : File := mkFile "letter.pdf" "application/pdf" "PDF".

Definition emptyState : State :=
  mkState [] EmptyString false EmptyString None ∅.
Definition freshWorld (s : State) : World := mkWorld s [] [].

Definition readOk (_ : File) : option string := Some "data:image/png;base64,UE5H".
Definition parseBraces (s : string) : option Json :=
  if String.eqb s "{}" then Some (JObj []) else None.
Definition serviceDown (_ : nat) (_ : list Part) : option string := None.
Definition saysNonsense (_ : nat) (_ : list Part) : option string :=
  Some "I cannot help with that".
Definition saysBraces (_ : nat) (_ : list Part) : option string := Some "{}".

(** A reply of the shape the image prompt asks for, and its parse. *)
Definition findingsText : string :=
  "{" +:+ quoted "description" +:+ ": " +:+ quoted "Left shoulder, AP view"
  +:+ ", " +:+ quoted "abnormalities" +:+ ": ["
  +:+ quoted "mild joint effusion" +:+ "], "
  +:+ quoted "measurements" +:+ ": [" +:+ quoted "joint space 4 mm" +:+ "], "
  +:+ quoted "confidence" +:+ ": 85, "
  +:+ quoted "recommendations" +:+ ": " +:+ quoted "Rest and follow up"
  +:+ "}".
Definition findings : Json :=
  imageFindingsObject "Left shoulder, AP view" ["mild joint effusion"]
                      ["joint space 4 mm"] 85%Q "Rest and follow up".
Definition parseFindings (s : string) : option Json :=
  if String.eqb s findingsText then Some findings else None.
Definition saysFindings (_ : nat) (_ : list Part) : option string :=
  Some findingsText.

(** Structured JSON for the image request (number 0), free text for the
    aggregate request. *)
Definition scripted (n : nat) (_ : list Part) : option string :=
  match n with
  | O => Some "{}"
  | _ => Some ("Diagnosis: Mild strain" +:+ nl +:+ "  rest and ice")
  end.

Definition janeWithScan : State :=
  mkState [letter; scan] "Jane Doe" false EmptyString None ∅.

(** A stored result, and a document library that breaks no line. *)
Definition strainResult : AnalysisResult :=
  mkResult noDocumentFindings (<["scan.png" := findings]> ∅)
           "Diagnosis: Mild strain" noRecommendations.
Definition a4Width : Q := 210%Q.
Definition oneLine (text : string) (_ : Q) : list string := [text].
Definition objectLine (_ : gmap string Json) (_ : Q) : list string :=
  ["[object Object]"].

Definition janeState : State :=
  mkState [letter] "Jane Doe" false EmptyString None ∅.

End Samples.

(** * Properties *)

(** ** Strings *)

Module JsFacts.
Import Js.

Lemma append_assoc (a b c : string) : (a +:+ b) +:+ c = a +:+ (b +:+ c).
Proof. induction a as [|x a IH]; simpl; [reflexivity | now rewrite IH]. Qed.

Lemma toLowerCase_app (a b : string) :
  toLowerCase (a +:+ b) = toLowerCase a +:+ toLowerCase b.
Proof. induction a as [|x a IH]; simpl; [reflexivity | now rewrite IH]. Qed.

(** Splitting [a + LF + rest] when [a] holds no line feed. *)
Lemma split_line (a rest : string) :
  noLF a = true ->
  split LF (a +:+ nl +:+ rest) = a :: split LF rest.
Proof.
  change (nl +:+ rest) with (String LF rest).
  unfold noLF. induction a as [|c a IH]; simpl; intros H.
  - reflexivity.
  - apply andb_true_iff in H as [Hc Ha].
    apply negb_true_iff in Hc. rewrite Hc.
    rewrite (IH Ha). reflexivity.
Qed.

Lemma split_single (a : string) : noLF a = true -> split LF a = [a].
Proof.
  unfold noLF. induction a as [|c a IH]; simpl; intros H.
  - reflexivity.
  - apply andb_true_iff in H as [Hc Ha].
    apply negb_true_iff in Hc. rewrite Hc.
    rewrite (IH Ha). reflexivity.
Qed.

(** [split] undoes [join] on lines. *)
Lemma split_join (ls : list string) :
  ls <> [] -> forallb noLF ls = true -> split LF (join nl ls) = ls.
Proof.
  induction ls as [|a ls IH]; [congruence |].
  intros _ H. simpl in H. apply andb_true_iff in H as [Ha Hls].
  destruct ls as [|b ls].
  - simpl. now apply split_single.
  - change (join nl (a :: b :: ls)) with (a +:+ nl +:+ join nl (b :: ls)).
    rewrite split_line by assumption.
    f_equal. apply IH; [discriminate | assumption].
Qed.

Lemma trimEnd_allWhite (s : string) :
  trimEnd s = EmptyString <-> allWhite s = true.
Proof.
  unfold allWhite. induction s as [|c s IH]; simpl.
  - tauto.
  - destruct (trimEnd s) eqn:E.
    + destruct (isWhiteSpace c); simpl.
      * tauto.
      * split; discriminate.
    + split; [discriminate |].
      intros H. apply andb_true_iff in H as [_ H].
      apply IH in H. discriminate.
Qed.

Lemma trimStart_allWhite (s : string) :
  allWhite s = true -> trimStart s = EmptyString.
Proof.
  unfold allWhite. induction s as [|c s IH]; simpl; [reflexivity |].
  intros H. apply andb_true_iff in H as [Hc Hs]. rewrite Hc. auto.
Qed.

Lemma trimStart_head (s : string) :
  trimStart s = EmptyString \/
  exists c t, trimStart s = String c t /\ isWhiteSpace c = false.
Proof.
  induction s as [|c s IH]; simpl; [now left |].
  destruct (isWhiteSpace c) eqn:E; [exact IH |].
  right. now exists c, s.
Qed.

Lemma trimStart_empty_allWhite (s : string) :
  trimStart s = EmptyString -> allWhite s = true.
Proof.
  unfold allWhite. induction s as [|c s IH]; simpl; [reflexivity |].
  destruct (isWhiteSpace c); [auto | discriminate].
Qed.

(** [s.trim() === ''] exactly when every character is white space. *)
Lemma trim_empty_iff (s : string) :
  trim s = EmptyString <-> allWhite s = true.
Proof.
  unfold trim. split.
  - intros H. destruct (trimStart_head s) as [E | (c & t & E & Hc)].
    + now apply trimStart_empty_allWhite.
    + rewrite E in H. apply trimEnd_allWhite in H.
      unfold allWhite in H. simpl in H. rewrite Hc in H. discriminate.
  - intros H. now rewrite trimStart_allWhite.
Qed.

Lemma allWhite_app (a b : string) :
  allWhite (a +:+ b) = allWhite a && allWhite b.
Proof.
  unfold allWhite. induction a as [|c a IH]; simpl; [reflexivity |].
  rewrite IH. now rewrite andb_assoc.
Qed.

Lemma trimEnd_app_white (a w : string) :
  allWhite w = true -> trimEnd (a +:+ w) = trimEnd a.
Proof.
  intros Hw. induction a as [|c a IH]; simpl.
  - now apply trimEnd_allWhite.
  - now rewrite IH.
Qed.

Lemma trimEnd_app_keep (a b : string) :
  trimEnd b <> EmptyString -> trimEnd (a +:+ b) = a +:+ trimEnd b.
Proof.
  intros Hb. induction a as [|c a IH]; simpl; [reflexivity |].
  rewrite IH. destruct (a +:+ trimEnd b) eqn:E; [| reflexivity].
  destruct a; simpl in E; [contradiction | discriminate].
Qed.

(** A white-space-only line holds no colon. *)
Lemma white_not_colon (c : ascii) :
  isWhiteSpace c = true -> Ascii.eqb ":" c = false.
Proof.
  destruct c as [[] [] [] [] [] [] [] []]; vm_compute; congruence.
Qed.

Lemma allWhite_no_colon (s : string) :
  allWhite s = true -> includes s ":" = false.
Proof.
  unfold allWhite. induction s as [|c s IH]; [reflexivity |].
  cbn [includes startsWith list_ascii_of_string forallb].
  intros H. apply andb_true_iff in H as [Hc Hs].
  rewrite (white_not_colon c Hc). simpl. auto.
Qed.

Lemma lowerChar_white (c : ascii) : isWhiteSpace (lowerChar c) = isWhiteSpace c.
Proof. destruct c as [[] [] [] [] [] [] [] []]; vm_compute; reflexivity. Qed.

Lemma allWhite_lower (s : string) : allWhite (toLowerCase s) = allWhite s.
Proof.
  unfold allWhite. induction s as [|c s IH]; simpl; [reflexivity |].
  now rewrite lowerChar_white, IH.
Qed.

End JsFacts.

(** ** Section extraction *)

Module ExtractFacts.
Import Js Extract JsFacts.

Lemma substring_last (c : ascii) (s : string) :
  substring (String.length s) 1 (String c s) =
  match s with
  | EmptyString => String c EmptyString
  | String _ s' => substring (String.length s') 1 s
  end.
Proof. destruct s; reflexivity. Qed.

Lemma endsWith_char_includes (c : ascii) (s : string) :
  endsWith s (String c EmptyString) = true ->
  includes s (String c EmptyString) = true.
Proof.
  unfold endsWith. induction s as [|a s IH]; [discriminate |].
  cbn [String.length]. rewrite Nat.sub_succ, Nat.sub_0_r.
  change (1 <=? S (String.length s))%nat with true. cbn [andb].
  rewrite substring_last. destruct s as [|b s].
  - intros H. apply String.eqb_eq in H. injection H as ->.
    cbn. now rewrite Ascii.eqb_refl.
  - intros H. cbn [includes]. apply orb_true_iff. right.
    apply IH. cbn [String.length]. rewrite Nat.sub_succ, Nat.sub_0_r.
    exact H.
Qed.

Lemma startsWith_white (c : ascii) (p s : string) :
  isWhiteSpace c = false -> allWhite s = true ->
  startsWith s (String c p) = false.
Proof.
  intros Hc Hs. destruct s as [|b s]; [reflexivity |].
  cbn [startsWith]. unfold allWhite in Hs. simpl in Hs.
  apply andb_true_iff in Hs as [Hb _].
  destruct (Ascii.eqb c b) eqn:E; [| reflexivity].
  apply Ascii.eqb_eq in E. subst b. congruence.
Qed.

Lemma includes_white (c : ascii) (p s : string) :
  isWhiteSpace c = false -> allWhite s = true ->
  includes s (String c p) = false.
Proof.
  intros Hc. induction s as [|b s IH]; intros Hs; [reflexivity |].
  cbn [includes]. rewrite (startsWith_white c p _ Hc Hs). cbn [orb].
  apply IH. unfold allWhite in *. simpl in Hs.
  now apply andb_true_iff in Hs as [_ Hs].
Qed.

(** A blank line is neither a diagnosis heading nor a potential heading. *)
Lemma blank_not_target (line : string) :
  allWhite line = true -> isTargetSection diagnosisNames line = false.
Proof.
  intros H. unfold isTargetSection, diagnosisNames. cbn [existsb].
  change (toLowerCase "diagnosis") with "diagnosis".
  change (toLowerCase "assessment") with "assessment".
  rewrite !includes_white by (assumption || reflexivity). reflexivity.
Qed.

Lemma blank_not_heading (line : string) :
  allWhite line = true -> isPotentialHeading line = false.
Proof.
  intros H. unfold isPotentialHeading.
  rewrite (allWhite_no_colon _ H).
  destruct (endsWith line ":") eqn:E.
  - apply endsWith_char_includes in E.
    rewrite (allWhite_no_colon _ H) in E. discriminate.
  - now rewrite andb_false_r.
Qed.

(** While nothing is being captured, lines that start no section leave
    the scan where it was. *)
Lemma scanLines_idle (names : list string) (pre rest : list string) :
  forall prev ext,
    noHeadingLine names pre = true ->
    exists prev',
      scanLines names prev (pre ++ rest) ext false =
      scanLines names prev' rest ext false.
Proof.
  induction pre as [|l pre IH]; intros prev ext H.
  - now exists prev.
  - simpl in H. apply andb_true_iff in H as [Hl Hpre].
    apply negb_true_iff in Hl. simpl. rewrite Hl. now apply IH.
Qed.

Lemma scanLines_none (names : list string) (lines : list string) :
  forall prev ext,
    noHeadingLine names lines = true ->
    scanLines names prev lines ext false = ext.
Proof.
  intros prev ext H.
  destruct (scanLines_idle names lines [] prev ext H) as [prev' E].
  rewrite app_nil_r in E. now rewrite E.
Qed.

(** Without a heading line, [extractSection] answers its placeholder. *)
Lemma extractSection_none (names : list string) (text : string) :
  noHeadingLine names (split LF text) = true ->
  extractSection text names = noInformation.
Proof.
  intros H. unfold extractSection. now rewrite scanLines_none.
Qed.

(** The line "Diagnosis: X" starts the diagnosis section, whatever [X]. *)
Lemma diagnosis_line_target (X : string) :
  isTargetSection diagnosisNames (toLowerCase ("Diagnosis: " +:+ X)) = true.
Proof. lazy. reflexivity. Qed.

Lemma diagnosis_line_not_blank (X : string) :
  prevIsBlank (Some ("Diagnosis: " +:+ X)) = false.
Proof.
  unfold prevIsBlank. apply String.eqb_neq. intros H.
  apply trim_empty_iff in H. discriminate.
Qed.

Lemma prevIsBlank_false (l : string) :
  allWhite l = false -> prevIsBlank (Some l) = false.
Proof.
  intros H. unfold prevIsBlank. apply String.eqb_neq. intros E.
  apply trim_empty_iff in E. congruence.
Qed.

Lemma prevIsBlank_true (l : string) :
  allWhite l = true -> prevIsBlank (Some l) = true.
Proof.
  intros H. unfold prevIsBlank. apply String.eqb_eq.
  now apply trim_empty_iff.
Qed.

(** The captured block, trimmed. *)
Lemma trim_block (X l1 l2 blank : string) :
  trimEnd l2 = l2 -> l2 <> EmptyString -> allWhite blank = true ->
  trim (((("Diagnosis: " +:+ X) +:+ nl +:+ l1) +:+ nl +:+ l2) +:+ nl +:+ blank)
  = join nl ["Diagnosis: " +:+ X; l1; l2].
Proof.
  intros H2 Hne Hb.
  rewrite !append_assoc. unfold trim.
  change (trimStart ("Diagnosis: " +:+ ?s)) with ("Diagnosis: " +:+ s).
  cbn [join].
  replace ("Diagnosis: " +:+ X +:+ nl +:+ l1 +:+ nl +:+ l2 +:+ nl +:+ blank)
    with (("Diagnosis: " +:+ X +:+ nl +:+ l1 +:+ nl +:+ l2) +:+ (nl +:+ blank))
    by now rewrite !append_assoc.
  rewrite trimEnd_app_white by (rewrite allWhite_app; now rewrite Hb).
  replace ("Diagnosis: " +:+ X +:+ nl +:+ l1 +:+ nl +:+ l2)
    with (("Diagnosis: " +:+ X +:+ nl +:+ l1 +:+ nl) +:+ l2)
    by now rewrite !append_assoc.
  rewrite trimEnd_app_keep by congruence.
  rewrite H2. now rewrite !append_assoc.
Qed.

(** *** The diagnosis block *)

(** C5, as stated, fails: on [stableReply] the first indented line holds
    a keyword and a colon, so the scan restarts the section there and the
    heading line "Diagnosis: X" is lost. *)
Lemma extractSection_restarts_on_keyword_line :
  extractSection stableReply diagnosisNames
    = join nl ["Assessment: stable"; "  Rest for two weeks"]
  /\ extractSection stableReply diagnosisNames
    <> join nl ["Diagnosis: X"; "  Assessment: stable"; "  Rest for two weeks"].
Proof. split; [vm_compute; reflexivity | vm_compute; discriminate]. Qed.

(** C5 (amended).  Let the reply consist of: lines [pre] none of which
    starts a diagnosis section; the line "Diagnosis: X"; two non-blank
    lines [l1], [l2] that start no diagnosis section themselves, [l2]
    without trailing white space; a blank line; a line [nxt] that
    [extractSection] takes for a heading (under 50 characters, with a
    colon, without two spaces in a row) and that starts no diagnosis
    section; then any lines [rest].  With the diagnosis keywords,
    [extractSection] returns exactly the heading line and the two lines
    after it: neither the blank line nor anything from [nxt] on. *)
Theorem extractSection_diagnosis_block
        (pre rest : list string) (X l1 l2 blank nxt : string) :
  forallb noLF (pre ++ ["Diagnosis: " +:+ X; l1; l2; blank; nxt] ++ rest) = true ->
  noHeadingLine diagnosisNames (pre ++ [l1; l2; nxt]) = true ->
  trim l1 <> EmptyString ->
  trimEnd l2 = l2 -> l2 <> EmptyString ->
  trim blank = EmptyString ->
  isPotentialHeading (toLowerCase nxt) = true ->
  extractSection
    (join nl (pre ++ ["Diagnosis: " +:+ X; l1; l2; blank; nxt] ++ rest))
    diagnosisNames
  = join nl ["Diagnosis: " +:+ X; l1; l2].
Proof.
  intros Hlf Hno H1 H2 H2ne Hb Hnxt.
  unfold noHeadingLine in Hno. rewrite forallb_app in Hno.
  apply andb_true_iff in Hno as [Hpre Hno]. cbn [forallb] in Hno.
  apply andb_true_iff in Hno as [T1 Hno].
  apply andb_true_iff in Hno as [T2 Hno].
  apply andb_true_iff in Hno as [T3 _].
  apply negb_true_iff in T1, T2, T3.
  apply trim_empty_iff in Hb.
  assert (W1 : allWhite l1 = false).
  { destruct (allWhite l1) eqn:E; [| reflexivity].
    apply trim_empty_iff in E. contradiction. }
  unfold extractSection.
  rewrite split_join;
    [| destruct pre; discriminate | exact Hlf].
  destruct (scanLines_idle diagnosisNames pre
              (["Diagnosis: " +:+ X; l1; l2; blank; nxt] ++ rest)
              None EmptyString Hpre) as [prev' ->].
  cbn [app scanLines].
  rewrite diagnosis_line_target.
  rewrite T1, diagnosis_line_not_blank, andb_false_r.
  rewrite T2, (prevIsBlank_false l1 W1), andb_false_r.
  rewrite blank_not_target by now rewrite allWhite_lower.
  rewrite blank_not_heading by now rewrite allWhite_lower.
  cbn [andb].
  rewrite T3, Hnxt, (prevIsBlank_true blank Hb). cbn [andb].
  rewrite trim_block by assumption.
  reflexivity.
Qed.

Lemma extractSection_diagnosis_block_witness :
  extractSection
    (join nl [ "Summary of the visit"; "Diagnosis: Mild strain";
               "  left shoulder"; "  no fracture"; EmptyString;
               "Recommendations:"; "Rest" ])
    diagnosisNames
  = join nl ["Diagnosis: Mild strain"; "  left shoulder"; "  no fracture"].
Proof.
  apply (extractSection_diagnosis_block
           ["Summary of the visit"] ["Rest"] "Mild strain"
           "  left shoulder" "  no fracture" EmptyString "Recommendations:").
  - reflexivity.
  - reflexivity.
  - vm_compute. discriminate.
  - reflexivity.
  - discriminate.
  - reflexivity.
  - reflexivity.
Defined.

End ExtractFacts.

(** ** The submission pipeline *)

Module AnalyzerFacts.
Import Js Extract JsFacts ExtractFacts Analyzer Samples.

Lemma keeps_refl (w : World) : keeps w w.
Proof. repeat split. Qed.

Lemma keeps_trans (w1 w2 w3 : World) :
  keeps w1 w2 -> keeps w2 w3 -> keeps w1 w3.
Proof.
  unfold keeps. intros (a1 & a2 & a3 & a4 & a5 & a6) (b1 & b2 & b3 & b4 & b5 & b6).
  repeat split; congruence.
Qed.

Lemma quiet_ret {A} (a : A) : quiet (mret a).
Proof. intros w r w' H. injection H as _ <-. apply keeps_refl. Qed.

Lemma quiet_throw {A} (e : Exn) : quiet (@throw A e).
Proof. intros w r w' H. injection H as _ <-. apply keeps_refl. Qed.

Lemma quiet_bind {A B} (m : M A) (k : A -> M B) :
  quiet m -> (forall a, quiet (k a)) -> quiet (m ≫= k).
Proof.
  intros Hm Hk w r w' H.
  unfold mbind, M_bind, bind in H.
  destruct (m w) as [[a | e] w1] eqn:E.
  - eapply keeps_trans; [eapply Hm, E | eapply Hk, H].
  - injection H as _ <-. eapply Hm, E.
Qed.

Lemma quiet_progress (f : gmap string nat -> gmap string nat) :
  quiet (setImageAnalysisProgress f).
Proof. intros w r w' H. injection H as _ <-. repeat split. Qed.

Section Oracles.
Variable generateContent : nat -> list Part -> option string.
Variable readAsDataURL : File -> option string.
Variable JSON_parse : string -> option Json.

#[local] Abbreviation callModel := (callModel generateContent).
#[local] Abbreviation fileToGenerativePart := (fileToGenerativePart readAsDataURL).
#[local] Abbreviation storeAnalysis := (storeAnalysis JSON_parse).
#[local] Abbreviation analyzeImages := (analyzeImages generateContent readAsDataURL JSON_parse).
#[local] Abbreviation tryBody := (tryBody generateContent readAsDataURL JSON_parse).
#[local] Abbreviation analyzeContent := (analyzeContent generateContent readAsDataURL JSON_parse).

Lemma quiet_callModel (parts : list Part) : quiet (callModel parts).
Proof.
  intros w r w' H. unfold Analyzer.callModel in H.
  destruct (generateContent _ _); injection H as _ <-; repeat split.
Qed.

Lemma quiet_fileToGenerativePart (file : File) :
  quiet (fileToGenerativePart file).
Proof.
  unfold Analyzer.fileToGenerativePart.
  destruct (readAsDataURL file); [apply quiet_ret | apply quiet_throw].
Qed.

Lemma quiet_analyzeImages (imageFiles : list File) :
  forall total index parts imageAnalysis,
    quiet (analyzeImages total index imageFiles parts imageAnalysis).
Proof.
  induction imageFiles as [|file rest IH]; intros total index parts ia.
  - apply quiet_ret.
  - cbn [Analyzer.analyzeImages].
    apply quiet_bind; [apply quiet_progress | intros _].
    apply quiet_bind; [apply quiet_fileToGenerativePart | intros part].
    apply quiet_bind; [apply quiet_callModel | intros text].
    apply quiet_bind; [apply quiet_progress | intros _].
    apply IH.
Qed.

(** When the body of the [try] throws, nothing but the progress
    indicator and the request log has been touched. *)
Lemma tryBody_throw_keeps (fs : list File) (p : string) (w w1 : World) (e : Exn) :
  tryBody fs p w = (Throw e, w1) -> keeps w w1.
Proof.
  unfold Analyzer.tryBody. intros H.
  unfold mbind, M_bind, bind in H.
  destruct (analyzeImages _ _ _ _ _ w) as [[[parts ia] | e1] w2] eqn:E1.
  - pose proof (quiet_analyzeImages _ _ _ _ _ _ _ _ E1) as K1.
    destruct (callModel parts w2) as [[text | e2] w3] eqn:E2.
    + discriminate H.
    + injection H as _ <-.
      eapply keeps_trans; [exact K1 | eapply quiet_callModel, E2].
  - injection H as _ <-. eapply quiet_analyzeImages, E1.
Qed.

(** *** Input validation *)

(** C1.  With no file selected or an empty patient name, [analyzeContent]
    sends no request to the completion service, sets the validation
    message, and leaves the stored result (and everything else) as it
    was. *)
Theorem analyzeContent_rejects_incomplete_input (w : World) :
  files (state w) = [] \/ patientName (state w) = EmptyString ->
  let w' := snd (analyzeContent w) in
  fst (analyzeContent w) = Ok tt /\
  calls w' = calls w /\
  error (state w') = validationMessage /\
  result (state w') = result (state w) /\
  isAnalyzing (state w') = isAnalyzing (state w) /\
  imageAnalysisProgress (state w') = imageAnalysisProgress (state w) /\
  console w' = console w.
Proof.
  intros H. unfold Analyzer.analyzeContent.
  assert (G : (length (files (state w)) =? 0)%nat
              || negb (truthy (patientName (state w))) = true).
  { destruct H as [-> | ->]; [reflexivity | apply orb_true_r]. }
  rewrite G. cbn. repeat split.
Qed.

(** *** Pipeline failures *)

(** C2.  Once the pipeline has started, an exception raised by the body
    of the [try] (intake, per-image requests, aggregate request) is
    handled by the one [catch]: [analyzeContent] itself completes
    normally, the error cell holds the generic message, the exception
    is logged once, the busy flag is cleared, and the stored result is
    the one from before the submission. *)
Theorem analyzeContent_failure_keeps_result (w w1 : World) (e : Exn) :
  files (state w) <> [] ->
  patientName (state w) <> EmptyString ->
  tryBody (files (state w)) (patientName (state w)) (started w) = (Throw e, w1) ->
  let w' := snd (analyzeContent w) in
  fst (analyzeContent w) = Ok tt /\
  error (state w') = pipelineErrorMessage /\
  result (state w') = result (state w) /\
  isAnalyzing (state w') = false /\
  console w' = (console w ++ [e])%list /\
  calls w' = calls w1.
Proof.
  intros Hf Hp Hbody.
  pose proof (tryBody_throw_keeps _ _ _ _ _ Hbody) as K.
  destruct K as (_ & _ & _ & _ & Kr & Kc).
  unfold Analyzer.analyzeContent.
  assert (G : (length (files (state w)) =? 0)%nat
              || negb (truthy (patientName (state w))) = false).
  { apply orb_false_iff. split.
    - destruct (files (state w)); [contradiction | reflexivity].
    - apply negb_false_iff. unfold truthy. apply negb_true_iff.
      now apply String.eqb_neq. }
  rewrite G.
  change ((setIsAnalyzing true;; setError EmptyString;;
           tryFinally
             (tryCatch (tryBody (files (state w)) (patientName (state w)))
                       (fun err => setError pipelineErrorMessage;;
                                   consoleError err))
             (setIsAnalyzing false)) w)
    with (tryFinally
            (tryCatch (tryBody (files (state w)) (patientName (state w)))
                      (fun err => setError pipelineErrorMessage;;
                                  consoleError err))
            (setIsAnalyzing false) (started w)).
  unfold tryFinally, tryCatch. rewrite Hbody.
  unfold started, mbind, M_bind, bind in *. cbn in Kr, Kc. cbn.
  repeat split; first [exact Kr | now rewrite Kc].
Qed.

(** *** The per-image analyzer *)

(** One turn of the loop, when the file reads and the service replies. *)
Lemma analyzeImages_step (total index : nat) (file : File) (rest : list File)
      (parts : list Part) (imageAnalysis : gmap string Json) (w : World)
      (url text : string) :
  readAsDataURL file = Some url ->
  generateContent (length (calls w))
                  [TextPart imagePrompt; imagePartOf url file] = Some text ->
  analyzeImages total index (file :: rest) parts imageAnalysis w =
  analyzeImages total (S index) rest
                (parts ++ imageParts total index url file)
                (storeAnalysis file text imageAnalysis)
                (afterImage url file w).
Proof.
  intros Hr Hg. cbn [Analyzer.analyzeImages].
  unfold mbind, M_bind, bind, Analyzer.fileToGenerativePart.
  rewrite Hr. cbn. unfold Analyzer.callModel. cbn.
  fold (imagePartOf url file). rewrite Hg. cbn.
  reflexivity.
Qed.

(** Later files of other names leave an entry alone. *)
Lemma analyzeImages_keeps_entry (rest : list File) (key : string) :
  Forall (fun g => name g <> key) rest ->
  forall total index parts imageAnalysis w parts' imageAnalysis' w',
    analyzeImages total index rest parts imageAnalysis w
      = (Ok (parts', imageAnalysis'), w') ->
    imageAnalysis' !! key = imageAnalysis !! key.
Proof.
  induction 1 as [|g rest Hg _ IH]; intros total index parts ia w parts' ia' w' H.
  - injection H as _ <- _. reflexivity.
  - cbn [Analyzer.analyzeImages] in H.
    unfold mbind, M_bind, bind, Analyzer.fileToGenerativePart in H.
    cbn in H. destruct (readAsDataURL g) as [url |]; [| discriminate H].
    cbn in H. unfold Analyzer.callModel in H. cbn in H.
    destruct (generateContent _ _) as [text |]; [| discriminate H].
    cbn in H. apply IH in H. rewrite H.
    unfold Analyzer.storeAnalysis.
    destruct (JSON_parse text); now rewrite lookup_insert_ne.
Qed.



End Oracles.

(** *** The three top-level text fields *)

(** C6.  When no line of the aggregate reply starts a section for a
    field's names, the field holds a fixed "not available" text: the
    field's own default when the reply does not mention the guarding
    keyword at all, and [extractSection]'s "No information available"
    when it mentions it outside a heading line. *)
Theorem missing_heading_gives_placeholder
        (f : TopField) (responseText : string)
        (imageAnalysis : gmap string Json) :
  noHeadingLine (fieldNames f) (split LF responseText) = true ->
  fieldOf f (buildResult responseText imageAnalysis)
  = (if fieldGate f responseText then noInformation else fieldDefault f)
  /\ In (fieldOf f (buildResult responseText imageAnalysis))
        [fieldDefault f; noInformation].
Proof.
  intros H.
  assert (E : fieldOf f (buildResult responseText imageAnalysis)
              = (if fieldGate f responseText then noInformation
                 else fieldDefault f)).
  { destruct f; cbn [fieldOf buildResult textFindings diagnosis
                       recommendations fieldGate fieldDefault];
      (destruct (_ responseText); [| reflexivity]);
      now apply extractSection_none. }
  split; [exact E |].
  rewrite E. destruct (fieldGate f responseText); simpl; tauto.
Qed.

(** *** Concrete runs *)

(** The specification's end-to-end scenario: one PDF and one image for
    "Jane Doe". *)
Example analyzeContent_end_to_end :
  let w' := snd (analyzeContent scripted readOk parseBraces
                                (freshWorld janeWithScan)) in
  (diagnosis <$> result (state w'))
    = Some ("Diagnosis: Mild strain" +:+ nl +:+ "  rest and ice")
  /\ (textFindings <$> result (state w')) = Some noDocumentFindings
  /\ (recommendations <$> result (state w')) = Some noRecommendations
  /\ ((fun r => map_to_list (imageFindings r)) <$> result (state w'))
     = Some [("scan.png", JObj [])]
  /\ length (calls w') = 2
  /\ error (state w') = EmptyString
  /\ isAnalyzing (state w') = false.
Proof. vm_compute. repeat split. Qed.

Lemma analyzeContent_rejects_incomplete_input_witness :
  calls (snd (analyzeContent serviceDown readOk parseBraces
                             (freshWorld emptyState))) = [].
Proof.
  exact (proj1 (proj2 (analyzeContent_rejects_incomplete_input
                         serviceDown readOk parseBraces
                         (freshWorld emptyState) (or_introl eq_refl)))).
Defined.

Lemma analyzeContent_failure_keeps_result_witness :
  error (state (snd (analyzeContent serviceDown readOk parseBraces
                                    (freshWorld janeState))))
  = pipelineErrorMessage.
Proof.
  refine (proj1 (proj2 (analyzeContent_failure_keeps_result
                          serviceDown readOk parseBraces
                          (freshWorld janeState) _ ServiceError _ _ _))).
  - discriminate.
  - discriminate.
  - reflexivity.
Defined.



Lemma missing_heading_gives_placeholder_witness :
  diagnosis (buildResult "The diagnosis is unclear" ∅) = noInformation.
Proof.
  exact (proj1 (missing_heading_gives_placeholder
                  Diagnosis "The diagnosis is unclear" ∅ eq_refl)).
Defined.

End AnalyzerFacts.

(** ** The report renderer *)

Module RendererFacts.
Import Js Analyzer Renderer.

Lemma pageBreaks_app (a b : list DrawCmd) :
  pageBreaks (a ++ b) = pageBreaks a + pageBreaks b.
Proof.
  induction a as [|c a IH]; simpl; [reflexivity |].
  rewrite IH. lia.
Qed.

Lemma pageBreaks_sectionTitle (title : string) (yPos : Z) :
  pageBreaks (sectionTitle title yPos) = 0.
Proof. reflexivity. Qed.

Section Render.
Variable pageWidth : Q.
Variable splitTextToSize : string -> Q -> list string.
Variable splitObjectToSize : gmap string Json -> Q -> list string.

#[local] Abbreviation generatePDF :=
  (generatePDF pageWidth splitTextToSize splitObjectToSize).
#[local] Abbreviation download :=
  (download pageWidth splitTextToSize splitObjectToSize).
#[local] Abbreviation yBeforeDiagnosis :=
  (yBeforeDiagnosis pageWidth splitTextToSize splitObjectToSize).
#[local] Abbreviation yBeforeRecommendations :=
  (yBeforeRecommendations pageWidth splitTextToSize splitObjectToSize).
#[local] Abbreviation beforeDiagnosis :=
  (beforeDiagnosis pageWidth splitTextToSize splitObjectToSize).

Lemma generatePDF_without_result (patientName today : string) :
  generatePDF None patientName today = [].
Proof. reflexivity. Qed.

(** C7.  The commands of a rendering are: what precedes the cursor test
    for "Diagnosis"; a page break exactly when the cursor exceeds 230
    there; the "Diagnosis" title and text; a page break exactly when
    the cursor exceeds 230 before "Recommendations"; the
    "Recommendations" title and text, and the save.  No other part
    holds a page break, so the rendering issues as many [addPage] calls
    as cursor tests succeed. *)
Theorem page_breaks_only_at_the_two_cursor_tests
        (r : AnalysisResult) (patientName today : string) :
  let y1 := yBeforeDiagnosis r in
  let y2 := yBeforeRecommendations r in
  let b1 := (230 <? y1)%Z in
  let b2 := (230 <? y2)%Z in
  let before := beforeDiagnosis r patientName today in
  let diag :=
    [TextLines (splitTextToSize (diagnosis r) (pageWidth - 40)) 20
               ((if b1 then 20 else y1) + 10)] in
  let recs :=
    [TextLines (splitTextToSize (recommendations r) (pageWidth - 40)) 20
               ((if b2 then 20 else y2) + 10);
     Save (patientName +:+ "_AI_Health_Report.pdf")] in
  generatePDF (Some r) patientName today
  = (before
       ++ breakIf b1
       ++ sectionTitle "Diagnosis" (if b1 then 20 else y1) ++ diag
       ++ breakIf b2
       ++ sectionTitle "Recommendations" (if b2 then 20 else y2) ++ recs)%list
  /\ pageBreaks before = 0 /\ pageBreaks diag = 0 /\ pageBreaks recs = 0
  /\ pageBreaks (generatePDF (Some r) patientName today)
     = Nat.b2n b1 + Nat.b2n b2
  /\ y1 = (100 + 7 * (Z.of_nat (length (splitTextToSize (textFindings r)
                                                        (pageWidth - 40)))
                      + Z.of_nat (length (splitObjectToSize
                                            (imageFindings r)
                                            (pageWidth - 40)))))%Z
  /\ y2 = ((if b1 then 20 else y1) + 10
           + 7 * Z.of_nat (length (splitTextToSize (diagnosis r)
                                                   (pageWidth - 40))))%Z.
Proof.
  intros y1 y2 b1 b2 before diag recs.
  assert (E : generatePDF (Some r) patientName today
              = (before ++ breakIf b1
                  ++ sectionTitle "Diagnosis" (if b1 then 20 else y1) ++ diag
                  ++ breakIf b2
                  ++ sectionTitle "Recommendations" (if b2 then 20 else y2)
                  ++ recs)%list).
  { subst before diag recs b2 y2.
    unfold Renderer.yBeforeRecommendations. fold y1. 
    unfold Renderer.generatePDF, newPageIfNeeded.
    change (50 + 30 + (10 + Z.of_nat (length (splitTextToSize (textFindings r) (pageWidth - 40))) * 7)
            + (10 + Z.of_nat (length (splitObjectToSize (imageFindings r) (pageWidth - 40))) * 7))%Z
      with y1.
    fold b1. destruct b1; cbn [snd fst];
      destruct (230 <? _)%Z; reflexivity. }
  split; [exact E |].
  split; [reflexivity |]. split; [reflexivity |]. split; [reflexivity |].
  split.
  - rewrite E. rewrite !pageBreaks_app, !pageBreaks_sectionTitle.
    change (pageBreaks before) with 0. change (pageBreaks diag) with 0.
    change (pageBreaks recs) with 0.
    destruct b1, b2; reflexivity.
  - clear E. subst before diag recs b2 y2 y1 b1.
    unfold Renderer.yBeforeRecommendations, Renderer.yBeforeDiagnosis,
      newPageIfNeeded.
    split; [lia |].
    destruct (230 <? _)%Z; cbn [snd]; lia.
Qed.



End Render.

End RendererFacts.

(** ** The dashboard shell *)

Module ShellFacts.
Import Shell.

Lemma handle_at_most_one (p : Panels) (e : Event) :
  openCount p <= 1 -> openCount (handle p e) <= 1.
Proof.
  destruct p as [[] [] [] [] [] []], e; cbn; lia.
Qed.

Lemma run_at_most_one (events : list Event) :
  forall p, openCount p <= 1 -> openCount (run events p) <= 1.
Proof.
  induction events as [|e events IH]; intros p H; [exact H |].
  apply IH. now apply handle_at_most_one.
Qed.

(** C9.  Each of the six toggles negates its own flag and sets every
    other flag to false; hence, starting with all panels closed, at most
    one flag is true after any sequence of events (the toggles, and the
    profile panel's own close button). *)
Theorem at_most_one_panel_open :
  (forall (k q : Panel) (p : Panels),
      q = k \/ isOpen q (toggle k p) = false)
  /\ (forall (k : Panel) (p : Panels),
         isOpen k (toggle k p) = negb (isOpen k p))
  /\ (forall (k : Panel) (p : Panels), openCount (toggle k p) <= 1)
  /\ (forall events : list Event, openCount (run events initial) <= 1).
Proof.
  repeat split.
  - intros k q p. destruct k, q; (now left) || (now right).
  - intros k p. now destruct k.
  - intros k p. destruct k, p as [[] [] [] [] [] []]; cbn; lia.
  - intros events. apply run_at_most_one. cbn. lia.
Qed.

End ShellFacts.

(** ** Rewards *)

Module RewardsFacts.
Import Js Rewards.

Lemma handle_wellFormed (userId : string) (s : State) (e : Event) :
  wellFormed s -> wellFormed (handle userId s e).
Proof.
  unfold wellFormed. intros [Hnn Hm].
  destruct e as [m | randomStr expiry | c]; cbn [handle].
  - unfold completeTask. cbn [userPoints].
    split; [lia |]. Z.div_mod_to_equations. lia.
  - unfold claimReward.
    destruct (userPoints s <? 100)%Z eqn:E; [now split |].
    apply Z.ltb_ge in E. cbn [userPoints].
    split; [lia |]. Z.div_mod_to_equations. lia.
  - now split.
Qed.

Lemma run_wellFormed (userId : string) (events : list Event) :
  forall s, wellFormed s -> wellFormed (run userId events s).
Proof.
  induction events as [|e events IH]; intros s H; [exact H |].
  apply IH. now apply handle_wellFormed.
Qed.

(** C10.  [claimReward] returns the state as it is when the points are
    below 100; otherwise it takes exactly 100 points and appends exactly
    one coupon, of status "active".  As the only other change of the
    points is [completeTask]'s +10, after any sequence of events from the
    initial state the points are a non-negative multiple of 10. *)
Theorem points_stay_nonnegative_multiple_of_ten
        (userId : string) (events : list Event) :
  (forall (s : State) (randomStr expiry : string),
      handle userId s (ClaimReward randomStr expiry)
      = if (userPoints s <? 100)%Z then s
        else mkState (userPoints s - 100)
                     (userCoupons s
                        ++ [mkCoupon ("HEX-" +:+ userId +:+ "-" +:+ randomStr)
                                     "active" expiry])
                     (moduleProgress s))
  /\ (forall (s : State) (m : Module_),
         userPoints (handle userId s (CompleteTask m)) = (userPoints s + 10)%Z)
  /\ (forall (s : State) (c : string),
         userPoints (handle userId s (RedeemCoupon c)) = userPoints s)
  /\ (0 <= userPoints (run userId events initial))%Z
  /\ (userPoints (run userId events initial) mod 10 = 0)%Z.
Proof.
  split; [reflexivity |]. split; [reflexivity |]. split; [reflexivity |].
  apply (run_wellFormed userId events initial).
  split; [cbn; lia | reflexivity].
Qed.

End RewardsFacts.

(** * Further properties *)

(** ** File intake and the submission pipeline *)

Module PipelineFacts.
Import Js Extract JsFacts ExtractFacts Analyzer Intake AnalyzerFacts.

#[local] Set Warnings "-clear-no-such-hyp".

(** *** Intake *)

Lemma previewsOf_images (createObjectURL : File -> string) (fs : list File) :
  Forall (fun f => isImage f = true -> createObjectURL f <> EmptyString) fs ->
  previewsOf createObjectURL fs = map createObjectURL (List.filter isImage fs).
Proof.
  induction 1 as [|f fs Hf _ IH]; [reflexivity |].
  unfold previewsOf in *. cbn [map List.filter].
  unfold isImage in *. destruct (startsWith (type f) "image/") eqn:E.
  - specialize (Hf eq_refl). unfold truthy at 1.
    apply String.eqb_neq in Hf. rewrite Hf. cbn. now rewrite IH.
  - cbn. exact IH.
Qed.

(** X1.  Choosing files replaces the file list and yields one preview per
    image file, in order (object URLs are never empty); the patient name,
    the error message and the result of an earlier analysis stay as they
    were. *)
Theorem handleFileChange_previews_images
        (createObjectURL : File -> string) (selection : option (list File))
        (s : State) :
  (forall f, createObjectURL f <> EmptyString) ->
  let s' := fst (handleFileChange createObjectURL selection s) in
  let previews := snd (handleFileChange createObjectURL selection s) in
  files s' = default [] selection
  /\ previews = map createObjectURL (List.filter isImage (files s'))
  /\ length previews <= length (files s')
  /\ patientName s' = patientName s
  /\ error s' = error s
  /\ result s' = result s.
Proof.
  intros H. cbn.
  assert (E : previewsOf createObjectURL (default [] selection)
              = map createObjectURL (List.filter isImage (default [] selection))).
  { apply previewsOf_images. apply Forall_forall. intros f _ _. apply H. }
  repeat split; try assumption.
  rewrite E, length_map. apply filter_length_le.
Qed.

Lemma handleFileChange_previews_images_witness :
  snd (handleFileChange (fun f => "blob:" +:+ name f)
                        (Some [Samples.letter; Samples.scan])
                        Samples.emptyState)
  = ["blob:scan.png"].
Proof.
  apply (handleFileChange_previews_images
           (fun f => "blob:" +:+ name f)
           (Some [Samples.letter; Samples.scan]) Samples.emptyState).
  intros f. discriminate.
Defined.

(** *** The inline image part *)

Lemma split_at_separator (sep : ascii) (a rest : string) :
  lacks sep a = true ->
  split sep (a +:+ String sep rest) = a :: split sep rest.
Proof.
  unfold lacks. induction a as [|c a IH]; simpl; intros H.
  - now rewrite Ascii.eqb_refl.
  - apply andb_true_iff in H as [Hc Ha].
    apply negb_true_iff in Hc. rewrite Hc.
    rewrite (IH Ha). reflexivity.
Qed.

Lemma split_without_separator (sep : ascii) (a : string) :
  lacks sep a = true -> split sep a = [a].
Proof.
  unfold lacks. induction a as [|c a IH]; simpl; intros H.
  - reflexivity.
  - apply andb_true_iff in H as [Hc Ha].
    apply negb_true_iff in Hc. rewrite Hc.
    rewrite (IH Ha). reflexivity.
Qed.

(** X2.  From a data URL [header,payload] (no comma in the header, none in
    the base64 payload) the inline part carries exactly the payload and
    the file's MIME type; from a URL without a comma the data is
    undefined. *)
Theorem imagePartOf_takes_payload (header payload : string) (file : File) :
  lacks "," header = true ->
  lacks "," payload = true ->
  imagePartOf (header +:+ "," +:+ payload) file
    = InlineData (Some payload) (type file)
  /\ imagePartOf header file = InlineData None (type file).
Proof.
  intros Hh Hp. unfold imagePartOf. split.
  - change ("," +:+ payload) with (String "," payload).
    rewrite split_at_separator by assumption.
    now rewrite (split_without_separator _ _ Hp).
  - now rewrite (split_without_separator _ _ Hh).
Qed.

Lemma imagePartOf_takes_payload_witness :
  imagePartOf "data:image/png;base64,UE5H" Samples.scan
  = InlineData (Some "UE5H") "image/png".
Proof.
  exact (proj1 (imagePartOf_takes_payload "data:image/png;base64" "UE5H"
                  Samples.scan eq_refl eq_refl)).
Defined.

(** *** The pipeline as a whole *)

Lemma filter_filter_implied {A} (p q : A -> bool) (l : list A) :
  (forall x, p x = true -> q x = true) ->
  List.filter p (List.filter q l) = List.filter p l.
Proof.
  intros H. induction l as [|x l IH]; [reflexivity |].
  cbn [List.filter]. destruct (q x) eqn:Q.
  - cbn [List.filter]. now rewrite IH.
  - rewrite IH. destruct (p x) eqn:P; [| reflexivity].
    apply H in P. congruence.
Qed.

Section Oracles.
Variable generateContent : nat -> list Part -> option string.
Variable readAsDataURL : File -> option string.
Variable JSON_parse : string -> option Json.

#[local] Abbreviation callModel := (callModel generateContent).
#[local] Abbreviation storeAnalysis := (storeAnalysis JSON_parse).
#[local] Abbreviation analyzeImages :=
  (analyzeImages generateContent readAsDataURL JSON_parse).
#[local] Abbreviation tryBody :=
  (tryBody generateContent readAsDataURL JSON_parse).
#[local] Abbreviation analyzeContent :=
  (analyzeContent generateContent readAsDataURL JSON_parse).

Lemma rejected_false (w : World) :
  files (state w) <> [] -> patientName (state w) <> EmptyString ->
  rejected w = false.
Proof.
  intros Hf Hp. unfold rejected. apply orb_false_iff. split.
  - destruct (files (state w)); [contradiction | reflexivity].
  - apply negb_false_iff. unfold truthy. apply negb_true_iff.
    now apply String.eqb_neq.
Qed.

(** [analyzeContent] past its guard, by the outcome of the [try] body. *)
Lemma analyzeContent_past_guard (w : World) :
  rejected w = false ->
  analyzeContent w =
  match tryBody (files (state w)) (patientName (state w)) (started w) with
  | (Ok _, w1) => (Ok tt, snd (setIsAnalyzing false w1))
  | (Throw e, w1) => (Ok tt, failed e w1)
  end.
Proof.
  intros G. unfold Analyzer.analyzeContent. unfold rejected in G. rewrite G.
  change ((setIsAnalyzing true;; setError EmptyString;;
           tryFinally
             (tryCatch (tryBody (files (state w)) (patientName (state w)))
                       (fun err => setError pipelineErrorMessage;;
                                   consoleError err))
             (setIsAnalyzing false)) w)
    with (tryFinally
            (tryCatch (tryBody (files (state w)) (patientName (state w)))
                      (fun err => setError pipelineErrorMessage;;
                                  consoleError err))
            (setIsAnalyzing false) (started w)).
  unfold tryFinally, tryCatch.
  destruct (tryBody _ _ (started w)) as [[[] | e] w1]; reflexivity.
Qed.

(** What a normal end of the [try] body means. *)
Lemma tryBody_ok_inv (fs : list File) (p : string) (w w1 : World) :
  tryBody fs p w = (Ok tt, w1) ->
  exists parts ia w2 text w3,
    analyzeImages (length (List.filter isImage fs)) 0 (List.filter isImage fs)
                  (openingParts fs p) ∅ w
      = (Ok (parts, ia), w2)
    /\ callModel parts w2 = (Ok text, w3)
    /\ w1 = snd (setResult (Some (buildResult text ia)) w3).
Proof.
  unfold Analyzer.tryBody. intros H. unfold mbind, M_bind, bind in H.
  match type of H with
  | context [Analyzer.analyzeImages _ _ _ ?t ?i ?l ?ps ∅ w] =>
      destruct (Analyzer.analyzeImages generateContent readAsDataURL JSON_parse
                                       t i l ps ∅ w)
        as [[[parts ia] | e1] w2] eqn:E1
  end; [| discriminate H].
  destruct (callModel parts w2) as [[text | e2] w3] eqn:E2; [| discriminate H].
  exists parts, ia, w2, text, w3.
  split; [exact E1 |]. split; [exact E2 |]. now injection H as <-.
Qed.

(** The three ways one turn of the image loop can go. *)
Lemma analyzeImages_turn (total index : nat) (file : File) (rest : list File)
      (parts : list Part) (ia : gmap string Json) (w : World) :
  (readAsDataURL file = None /\
   analyzeImages total index (file :: rest) parts ia w
     = (Throw ReaderError, stoppedAtRead file w))
  \/ (exists url,
         readAsDataURL file = Some url /\
         generateContent (length (calls w))
                         [TextPart imagePrompt; imagePartOf url file] = None /\
         analyzeImages total index (file :: rest) parts ia w
           = (Throw ServiceError, stoppedAtRequest url file w))
  \/ (exists url text,
         readAsDataURL file = Some url /\
         generateContent (length (calls w))
                         [TextPart imagePrompt; imagePartOf url file]
           = Some text /\
         analyzeImages total index (file :: rest) parts ia w
           = analyzeImages total (S index) rest
                           (parts ++ imageParts total index url file)
                           (storeAnalysis file text ia)
                           (afterImage url file w)).
Proof.
  destruct (readAsDataURL file) as [url |] eqn:Hr.
  - destruct (generateContent (length (calls w))
                              [TextPart imagePrompt; imagePartOf url file])
      as [text |] eqn:Hg.
    + right. right. exists url, text. split; [reflexivity |].
      split; [exact Hg |]. now apply analyzeImages_step.
    + right. left. exists url. split; [reflexivity |]. split; [exact Hg |].
      cbn [Analyzer.analyzeImages].
      unfold mbind, M_bind, bind, Analyzer.fileToGenerativePart.
      rewrite Hr. cbn. unfold Analyzer.callModel. cbn. now rewrite Hg.
  - left. split; [reflexivity |].
    cbn [Analyzer.analyzeImages].
    unfold mbind, M_bind, bind, Analyzer.fileToGenerativePart.
    now rewrite Hr.
Qed.

(** The image loop only appends to the request log: at most one request
    per file, each of the per-image kind. *)
Lemma analyzeImages_calls (imageFiles : list File) :
  forall total index parts ia w r w',
    analyzeImages total index imageFiles parts ia w = (r, w') ->
    exists extra,
      calls w' = (calls w ++ extra)%list
      /\ length extra <= length imageFiles
      /\ forallb isImageRequest extra = true.
Proof.
  induction imageFiles as [|file rest IH]; intros total index parts ia w r w' H.
  - injection H as _ <-. exists []. now rewrite app_nil_r.
  - destruct (analyzeImages_turn total index file rest parts ia w)
      as [[_ E] | [(url & _ & _ & E) | (url & text & _ & _ & E)]];
      rewrite E in H.
    + injection H as _ <-. exists []. cbn. rewrite app_nil_r.
      split; [easy | split; [lia | reflexivity]].
    + injection H as _ <-. eexists. split; [reflexivity |].
      split; [cbn; lia |]. cbn. now rewrite String.eqb_refl.
    + apply IH in H as (extra & Hc & Hl & Hk). cbn [afterImage calls] in Hc.
      eexists. rewrite Hc, <- app_assoc. split; [reflexivity |].
      split; [cbn; lia |].
      cbn [app forallb isImageRequest imagePartOf].
      now rewrite String.eqb_refl.
Qed.

Lemma callModel_calls (parts : list Part) (w : World) (r : Outcome string)
      (w' : World) :
  callModel parts w = (r, w') -> calls w' = (calls w ++ [parts])%list.
Proof.
  unfold Analyzer.callModel.
  destruct (generateContent _ _); intros H; now injection H as _ <-.
Qed.

(** The [try] body only appends to the request log: at most one request
    per image and one aggregate request. *)
Lemma tryBody_calls (fs : list File) (p : string) (w : World)
      (r : Outcome unit) (w1 : World) :
  tryBody fs p w = (r, w1) ->
  exists extra,
    calls w1 = (calls w ++ extra)%list
    /\ length extra <= length (List.filter isImage fs) + 1.
Proof.
  unfold Analyzer.tryBody. intros H. unfold mbind, M_bind, bind in H.
  match type of H with
  | context [Analyzer.analyzeImages _ _ _ ?t ?i ?l ?ps ∅ w] =>
      destruct (Analyzer.analyzeImages generateContent readAsDataURL JSON_parse
                                       t i l ps ∅ w)
        as [[[parts ia] | e1] w2] eqn:E1
  end.
  - apply analyzeImages_calls in E1 as (extra & Hc & Hl & _).
    destruct (callModel parts w2) as [[text | e2] w3] eqn:E2;
      apply callModel_calls in E2;
      injection H as _ <-; cbn [setResult modifyState calls snd];
      exists (extra ++ [parts])%list;
      (split; [cbn; rewrite E2, Hc; now rewrite app_assoc
              | rewrite length_app; cbn; lia]).
  - apply analyzeImages_calls in E1 as (extra & Hc & Hl & _).
    injection H as _ <-. exists extra. split; [exact Hc | lia].
Qed.

(** X3.  No failure escapes [analyzeContent].  For a submission whose
    requests and file reads have all settled, each by an answer or by a
    rejection, the handler has finished normally: a rejected read, a
    rejected request and a reply that does not parse are all caught inside
    it.  It has left the file list and the patient name alone and, once
    past its guard, has cleared the busy flag.  A request that never
    settles is not a run of this model: the handler is then still waiting
    and the busy flag stays set. *)
Theorem analyzeContent_lets_no_failure_escape (w : World) :
  let w' := snd (analyzeContent w) in
  fst (analyzeContent w) = Ok tt
  /\ files (state w') = files (state w)
  /\ patientName (state w') = patientName (state w)
  /\ isAnalyzing (state w')
     = (if rejected w then isAnalyzing (state w) else false).
Proof.
  destruct (rejected w) eqn:G.
  - unfold Analyzer.analyzeContent. unfold rejected in G. rewrite G.
    cbn. repeat split.
  - rewrite (analyzeContent_past_guard w G).
    destruct (tryBody _ _ (started w)) as [[[] | e] w1] eqn:E.
    + apply tryBody_ok_inv in E as (parts & ia & w2 & text & w3 & E1 & E2 & ->).
      pose proof (quiet_analyzeImages _ _ _ _ _ _ _ _ _ _ _ E1) as K1.
      pose proof (quiet_callModel _ _ _ _ _ E2) as K2.
      destruct (keeps_trans _ _ _ K1 K2) as (Kf & Kp & _).
      cbn. cbn in Kf, Kp. repeat split; assumption.
    + pose proof (tryBody_throw_keeps _ _ _ _ _ _ _ _ E) as (Kf & Kp & _).
      cbn. cbn in Kf, Kp. repeat split; assumption.
Qed.

(** X4.  A submission sends at most one request per image file plus one
    aggregate request, and never removes or rewrites an earlier entry of
    the request log. *)
Theorem analyzeContent_request_bound (w : World) :
  exists extra,
    calls (snd (analyzeContent w)) = (calls w ++ extra)%list
    /\ length extra <= length (List.filter isImage (files (state w))) + 1.
Proof.
  destruct (rejected w) eqn:G.
  - unfold Analyzer.analyzeContent. unfold rejected in G. rewrite G.
    exists []. cbn. rewrite app_nil_r. split; [reflexivity | lia].
  - rewrite (analyzeContent_past_guard w G).
    destruct (tryBody _ _ (started w)) as [[[] | e] w1] eqn:E;
      apply tryBody_calls in E as (extra & Hc & Hl);
      exists extra; (split; [exact Hc | exact Hl]).
Qed.

(** X5.  Files that are neither PDFs nor images play no part: the [try]
    body run on all the files is the one run on the PDFs and images
    alone, so such a file adds nothing to any request and nothing to the
    result. *)
Theorem unsupported_files_are_ignored (fs : list File) (p : string) (w : World) :
  tryBody fs p w = tryBody (List.filter isSupported fs) p w.
Proof.
  unfold Analyzer.tryBody.
  rewrite (filter_filter_implied isPdf isSupported fs)
    by (intros x Hx; unfold isSupported; now rewrite Hx).
  rewrite (filter_filter_implied isImage isSupported fs)
    by (intros x Hx; unfold isSupported; rewrite Hx; apply orb_true_r).
  reflexivity.
Qed.

(** When every image reads and every request is answered, the loop ends
    normally: one entry per image name, one request per image, every
    image's progress at 100. *)
Lemma analyzeImages_succeeds (imageFiles : list File) :
  (forall n request, generateContent n request <> None) ->
  Forall (fun f => readAsDataURL f <> None) imageFiles ->
  forall total index parts ia w,
  exists parts' ia' w',
    analyzeImages total index imageFiles parts ia w = (Ok (parts', ia'), w')
    /\ dom ia' = dom ia ∪ list_to_set (name <$> imageFiles)
    /\ length (calls w') = length (calls w) + length imageFiles
    /\ (forall k, imageAnalysisProgress (state w') !! k
                  = if decide (k ∈ name <$> imageFiles) then Some 100
                    else imageAnalysisProgress (state w) !! k).
Proof.
  intros Hgen. induction 1 as [|file rest Hfile Hrest IH];
    intros total index parts ia w.
  - exists parts, ia, w. split; [reflexivity |]. split; [set_solver |].
    split; [cbn; lia |]. intros k. cbn. destruct (decide _) as [D |]; [| easy].
    now apply elem_of_nil in D.
  - destruct (analyzeImages_turn total index file rest parts ia w)
      as [[E _] | [(url & _ & E & _) | (url & text & _ & _ & E)]].
    + contradiction.
    + now apply Hgen in E.
    + destruct (IH total (S index)
                   (parts ++ imageParts total index url file)%list
                   (storeAnalysis file text ia) (afterImage url file w))
        as (parts' & ia' & w' & Erun & Hdom & Hcalls & Hprog).
      exists parts', ia', w'. rewrite E. split; [exact Erun |].
      split; [| split].
      * rewrite Hdom. unfold Analyzer.storeAnalysis.
        destruct (JSON_parse text); rewrite dom_insert_L; set_solver.
      * rewrite Hcalls. cbn. rewrite length_app. cbn. lia.
      * intros k. rewrite Hprog. cbn [afterImage state imageAnalysisProgress].
        rewrite fmap_cons.
        destruct (decide (k ∈ name <$> rest)) as [D | D].
        -- rewrite decide_True by set_solver. reflexivity.
        -- destruct (decide (k = name file)) as [-> | N].
           ++ rewrite decide_True by set_solver. apply lookup_insert_eq.
           ++ rewrite decide_False by set_solver.
              now rewrite !lookup_insert_ne by congruence.
Qed.

(** An unreadable file stops the loop, at that file or before. *)
Lemma analyzeImages_unreadable (imageFiles : list File) (f : File) :
  In f imageFiles -> readAsDataURL f = None ->
  forall total index parts ia w,
  exists e w', analyzeImages total index imageFiles parts ia w = (Throw e, w').
Proof.
  intros Hin Hf. induction imageFiles as [|file rest IH]; [contradiction |].
  intros total index parts ia w.
  destruct (analyzeImages_turn total index file rest parts ia w)
    as [[_ E] | [(url & _ & _ & E) | (url & text & Hr & _ & E)]].
  - eauto.
  - eauto.
  - rewrite E. apply IH. destruct Hin as [-> | Hin]; [congruence | exact Hin].
Qed.

Lemma tryBody_loop_throws (fs : list File) (p : string) (w w2 : World) (e : Exn) :
  (forall parts,
      analyzeImages (length (List.filter isImage fs)) 0
                    (List.filter isImage fs) parts ∅ w = (Throw e, w2)) ->
  tryBody fs p w = (Throw e, w2).
Proof.
  intros H. unfold Analyzer.tryBody, mbind, M_bind, bind.
  now rewrite H.
Qed.

Lemma images_readable (fs : list File) :
  Forall (fun f => isImage f = true -> readAsDataURL f <> None) fs ->
  Forall (fun f => readAsDataURL f <> None) (List.filter isImage fs).
Proof.
  induction 1 as [|f fs Hf Hfs IH]; [constructor |].
  cbn [List.filter]. destruct (isImage f) eqn:E; [| exact IH].
  constructor; [now apply Hf | exact IH].
Qed.

(** X6.  When the service answers every request and every image file can
    be read, a submission past the guard stores a result whose
    [imageFindings] has exactly the names of the image files as keys,
    sends one request per image and one aggregate request, clears the
    error message, logs nothing to the console, and leaves the progress of
    every image at 100. *)
Theorem analyzeContent_succeeds_when_all_answer (w : World) :
  files (state w) <> [] ->
  patientName (state w) <> EmptyString ->
  (forall n request, generateContent n request <> None) ->
  Forall (fun f => isImage f = true -> readAsDataURL f <> None)
         (files (state w)) ->
  let w' := snd (analyzeContent w) in
  let images := List.filter isImage (files (state w)) in
  (exists r, result (state w') = Some r
             /\ dom (imageFindings r) = list_to_set (name <$> images))
  /\ length (calls w') = length (calls w) + length images + 1
  /\ error (state w') = EmptyString
  /\ isAnalyzing (state w') = false
  /\ console w' = console w
  /\ Forall (fun f => imageAnalysisProgress (state w') !! name f = Some 100)
            images.
Proof.
  intros Hf Hp Hgen Hread w' images. subst w'.
  rewrite (analyzeContent_past_guard w (rejected_false w Hf Hp)).
  unfold Analyzer.tryBody, mbind, M_bind, bind. fold images.
  match goal with
  | |- context [Analyzer.analyzeImages _ _ _ ?t ?i images ?ps ∅ ?w0] =>
      destruct (analyzeImages_succeeds images Hgen
                  (images_readable _ Hread) t i ps ∅ w0)
        as (parts' & ia' & w2 & E1 & Hdom & Hcalls & Hprog);
      pose proof (quiet_analyzeImages _ _ _ _ _ _ _ _ _ _ _ E1)
        as (_ & _ & _ & Ke & _ & Kc);
      rewrite E1
  end.
  unfold Analyzer.callModel.
  destruct (generateContent (length (calls w2)) parts') as [text |] eqn:Hg;
    [| now apply Hgen in Hg].
  cbn. cbn in Hcalls, Ke, Kc, Hprog.
  split; [| split; [| split; [| split; [| split]]]].
  - eexists. split; [reflexivity |]. cbn. rewrite Hdom. set_solver.
  - rewrite length_app, Hcalls.
    change (calls (started w)) with (calls w). cbn. lia.
  - exact Ke.
  - reflexivity.
  - exact Kc.
  - apply Forall_forall. intros f Hin. rewrite Hprog.
    rewrite decide_True; [reflexivity |].
    apply list_elem_of_fmap. exists f. split; [reflexivity |].
    first [exact Hin | now apply list_elem_of_In].
Qed.

(** X7.  If one of the image files cannot be read, a submission past the
    guard ends in the generic error: the earlier result stays, exactly one
    exception is logged, and only per-image requests -- never the
    aggregate request -- have been sent. *)
Theorem unreadable_image_fails_submission (w : World) (f : File) :
  In f (files (state w)) ->
  isImage f = true ->
  readAsDataURL f = None ->
  patientName (state w) <> EmptyString ->
  let w' := snd (analyzeContent w) in
  error (state w') = pipelineErrorMessage
  /\ result (state w') = result (state w)
  /\ isAnalyzing (state w') = false
  /\ (exists e, console w' = (console w ++ [e])%list)
  /\ (exists extra, calls w' = (calls w ++ extra)%list
                    /\ forallb isImageRequest extra = true).
Proof.
  intros Hin Himg Hread Hp w'. subst w'.
  assert (Hf : files (state w) <> []) by (intros E; now rewrite E in Hin).
  rewrite (analyzeContent_past_guard w (rejected_false w Hf Hp)).
  assert (Hin' : In f (List.filter isImage (files (state w))))
    by (apply filter_In; now split).
  unfold Analyzer.tryBody, mbind, M_bind, bind.
  match goal with
  | |- context [Analyzer.analyzeImages _ _ _ ?t ?i ?l ?ps ∅ ?w0] =>
      destruct (analyzeImages_unreadable l f Hin' Hread t i ps ∅ w0)
        as (e & w2 & E1);
      pose proof (quiet_analyzeImages _ _ _ _ _ _ _ _ _ _ _ E1)
        as (_ & _ & _ & _ & Kr & Kc);
      pose proof (analyzeImages_calls _ _ _ _ _ _ _ _ E1)
        as (extra & Hc & _ & Hk);
      rewrite E1
  end.
  unfold failed, mbind, M_bind, bind. cbn.
  change (result (state (started w))) with (result (state w)) in Kr.
  change (console (started w)) with (console w) in Kc.
  change (calls (started w)) with (calls w) in Hc.
  repeat split; try assumption.
  - exists e. now rewrite Kc.
  - exists extra. now split.
Qed.

(** A loop that ends normally has pushed two parts per image. *)
Lemma analyzeImages_parts (imageFiles : list File) :
  forall total index parts ia w parts' ia' w',
    analyzeImages total index imageFiles parts ia w = (Ok (parts', ia'), w') ->
    exists added,
      parts' = (parts ++ added)%list /\ length added = 2 * length imageFiles.
Proof.
  induction imageFiles as [|file rest IH];
    intros total index parts ia w parts' ia' w' H.
  - injection H as <- _ _. exists []. now rewrite app_nil_r.
  - destruct (analyzeImages_turn total index file rest parts ia w)
      as [[_ E] | [(url & _ & _ & E) | (url & text & _ & _ & E)]];
      rewrite E in H; try discriminate H.
    apply IH in H as (added & -> & Hl).
    exists (imageParts total index url file ++ added)%list.
    split; [now rewrite app_assoc |].
    rewrite length_app. cbn. lia.
Qed.

(** X27.  When the [try] body ends normally, the last request it sent is
    the aggregate request: the prompt naming the patient, then the text of
    the PDFs if there are any, then two parts for every image file. *)
Theorem aggregate_request_shape (fs : list File) (p : string) (w w1 : World) :
  tryBody fs p w = (Ok tt, w1) ->
  exists added,
    last (calls w1) = Some (openingParts fs p ++ added)%list
    /\ length added = 2 * length (List.filter isImage fs)
    /\ head (openingParts fs p ++ added)%list = Some (TextPart (overallPrompt p)).
Proof.
  intros H.
  apply tryBody_ok_inv in H as (parts & ia & w2 & text & w3 & E1 & E2 & ->).
  apply analyzeImages_parts in E1 as (added & -> & Hl).
  apply callModel_calls in E2.
  exists added. cbn [setResult modifyState snd calls]. rewrite E2.
  split; [apply last_snoc |]. split; [exact Hl |].
  unfold openingParts. now destruct (0 <? _)%nat.
Qed.

(** X28.  A submission ends in one of three ways, told apart by the error
    message: rejected by the guard (validation message, nothing sent,
    result untouched), failed (generic error message, result untouched),
    or succeeded (empty error message and a result stored).  An error
    message and a newly stored result never come together. *)
Theorem submission_ends_in_one_of_three_ways (w : World) :
  let w' := snd (analyzeContent w) in
  (error (state w') = validationMessage
   /\ result (state w') = result (state w)
   /\ calls w' = calls w)
  \/ (error (state w') = pipelineErrorMessage
      /\ result (state w') = result (state w))
  \/ (error (state w') = EmptyString
      /\ exists text ia, result (state w') = Some (buildResult text ia)).
Proof.
  destruct (rejected w) eqn:G.
  - left. unfold Analyzer.analyzeContent. unfold rejected in G. rewrite G.
    cbn. repeat split.
  - right. rewrite (analyzeContent_past_guard w G).
    destruct (tryBody _ _ (started w)) as [[[] | e] w1] eqn:E.
    + right.
      apply tryBody_ok_inv in E as (parts & ia & w2 & text & w3 & E1 & E2 & ->).
      pose proof (quiet_analyzeImages _ _ _ _ _ _ _ _ _ _ _ E1) as K1.
      pose proof (quiet_callModel _ _ _ _ _ E2) as K2.
      destruct (keeps_trans _ _ _ K1 K2) as (_ & _ & _ & Ke & _).
      cbn. split; [exact Ke |]. now exists text, ia.
    + left.
      pose proof (tryBody_throw_keeps _ _ _ _ _ _ _ _ E) as (_ & _ & _ & _ & Kr & _).
      unfold failed, mbind, M_bind, bind. cbn. split; [reflexivity | exact Kr].
Qed.

End Oracles.

(** *** Concrete runs *)

Lemma aggregate_request_shape_witness :
  exists added,
    last (calls (snd (tryBody Samples.scripted Samples.readOk
                              Samples.parseBraces
                              [Samples.letter; Samples.scan] "Jane Doe"
                              (Samples.freshWorld Samples.janeWithScan))))
    = Some (openingParts [Samples.letter; Samples.scan] "Jane Doe" ++ added)%list
    /\ length added = 2.
Proof.
  destruct (aggregate_request_shape
              Samples.scripted Samples.readOk Samples.parseBraces
              [Samples.letter; Samples.scan] "Jane Doe"
              (Samples.freshWorld Samples.janeWithScan)
              (snd (tryBody Samples.scripted Samples.readOk
                            Samples.parseBraces
                            [Samples.letter; Samples.scan] "Jane Doe"
                            (Samples.freshWorld Samples.janeWithScan)))
              eq_refl)
    as (added & Hlast & Hlen & _).
  exists added. split; [exact Hlast | exact Hlen].
Defined.

Lemma analyzeContent_succeeds_when_all_answer_witness :
  length (calls (snd (analyzeContent Samples.scripted Samples.readOk
                                     Samples.parseBraces
                                     (Samples.freshWorld Samples.janeWithScan))))
  = 2.
Proof.
  refine (proj1 (proj2 (analyzeContent_succeeds_when_all_answer
                          Samples.scripted Samples.readOk Samples.parseBraces
                          (Samples.freshWorld Samples.janeWithScan)
                          _ _ _ _))).
  - discriminate.
  - discriminate.
  - intros [|n] request; discriminate.
  - repeat constructor; discriminate.
Defined.

Lemma unreadable_image_fails_submission_witness :
  error (state (snd (analyzeContent Samples.scripted neverReads
                                    Samples.parseBraces
                                    (Samples.freshWorld Samples.janeWithScan))))
  = pipelineErrorMessage.
Proof.
  refine (proj1 (unreadable_image_fails_submission
                   Samples.scripted neverReads Samples.parseBraces
                   (Samples.freshWorld Samples.janeWithScan) Samples.scan
                   _ _ _ _)).
  - right. now left.
  - reflexivity.
  - reflexivity.
  - discriminate.
Defined.

End PipelineFacts.

(** ** Section extraction, continued *)

Module SectionFacts.
Import Js Extract Lines JsFacts ExtractFacts Analyzer.

Lemma trimEnd_idempotent (s : string) : trimEnd (trimEnd s) = trimEnd s.
Proof.
  induction s as [|c s IH]; [reflexivity |].
  cbn [trimEnd]. destruct (trimEnd s) as [|d t] eqn:E.
  - destruct (isWhiteSpace c) eqn:W; [reflexivity |].
    cbn [trimEnd]. now rewrite W.
  - cbn [trimEnd] in *. rewrite IH. reflexivity.
Qed.

Lemma trimEnd_keeps_head (c : ascii) (t : string) :
  isWhiteSpace c = false -> exists t', trimEnd (String c t) = String c t'.
Proof.
  intros W. cbn [trimEnd]. destruct (trimEnd t); [rewrite W |]; eauto.
Qed.

Lemma trim_idempotent (s : string) : trim (trim s) = trim s.
Proof.
  unfold trim. destruct (trimStart_head s) as [E | (c & t & E & W)].
  - rewrite E. reflexivity.
  - rewrite E. destruct (trimEnd_keeps_head c t W) as [t' Et].
    rewrite Et. cbn [trimStart]. rewrite W, <- Et.
    apply trimEnd_idempotent.
Qed.

Lemma orElse_nonempty (a b : string) :
  b <> EmptyString -> orElse a b <> EmptyString.
Proof.
  intros Hb. unfold orElse, truthy.
  destruct (String.eqb a EmptyString) eqn:E; [exact Hb |].
  now apply String.eqb_neq in E.
Qed.

Lemma extractSection_nonempty (text : string) (names : list string) :
  extractSection text names <> EmptyString.
Proof. unfold extractSection. now apply orElse_nonempty. Qed.

Lemma extractSection_trimmed (text : string) (names : list string) :
  trim (extractSection text names) = extractSection text names.
Proof.
  unfold extractSection, orElse.
  destruct (truthy _); [apply trim_idempotent | reflexivity].
Qed.

(** X8.  Whatever the aggregate reply, each of the three text fields of the
    result is a non-empty string without leading or trailing white
    space. *)
Theorem result_fields_nonempty_and_trimmed
        (f : TopField) (responseText : string) (ia : gmap string Json) :
  fieldOf f (buildResult responseText ia) <> EmptyString
  /\ trim (fieldOf f (buildResult responseText ia))
     = fieldOf f (buildResult responseText ia).
Proof.
  destruct f; cbn [fieldOf buildResult textFindings diagnosis recommendations];
    (destruct (_ responseText);
     [split; [apply extractSection_nonempty | apply extractSection_trimmed]
     | split; [discriminate | reflexivity]]).
Qed.

Lemma append_empty_r (a : string) : a +:+ EmptyString = a.
Proof. induction a as [|x a IH]; simpl; [reflexivity | now rewrite IH]. Qed.

Lemma join_heading (h : string) (body : list string) :
  join nl (h :: body) = h +:+ tailText body.
Proof.
  revert h. induction body as [|b body IH]; intros h.
  - cbn. now rewrite append_empty_r.
  - change (join nl (h :: b :: body)) with (h +:+ nl +:+ join nl (b :: body)).
    now rewrite IH.
Qed.

Lemma scanLines_running_text (names : list string) (body : list string) :
  forall prev ext,
    forallb (plainLine names) body = true ->
    scanLines names prev body ext true = ext +:+ tailText body.
Proof.
  induction body as [|b body IH]; intros prev ext H.
  - cbn. now rewrite append_empty_r.
  - cbn [forallb] in H. apply andb_true_iff in H as [Hb Hbody].
    unfold plainLine in Hb. apply andb_true_iff in Hb as [T P].
    apply negb_true_iff in T, P.
    cbn [scanLines]. rewrite T, P. cbn [andb].
    rewrite (IH _ _ Hbody). cbn [tailText fold_right].
    now rewrite !append_assoc.
Qed.

Lemma scanLines_never_ends (names : list string) (pre rest : list string) :
  forall prev ext capturing,
    forallb (neverEnds names) pre = true ->
    exists prev' ext' capturing',
      scanLines names prev (pre ++ rest) ext capturing
      = scanLines names prev' rest ext' capturing'.
Proof.
  induction pre as [|l pre IH]; intros prev ext capturing H.
  - now exists prev, ext, capturing.
  - cbn [forallb] in H. apply andb_true_iff in H as [Hl Hpre].
    unfold neverEnds in Hl. cbn [app scanLines].
    destruct (isTargetSection names (toLowerCase l)); [now apply IH |].
    cbn [orb] in Hl. apply negb_true_iff in Hl. rewrite Hl. cbn [andb].
    destruct capturing; now apply IH.
Qed.

(** X9.  The extracted section starts at the last line that opens it: if
    no line before the heading [h] can end a section and every line after
    it is running text, [extractSection] returns the heading and all that
    follows, trimmed, and drops whatever came before -- an earlier section
    of the same names included. *)
Theorem section_runs_from_last_heading
        (names pre body : list string) (h : string) :
  forallb noLF (pre ++ h :: body) = true ->
  forallb (neverEnds names) pre = true ->
  isTargetSection names (toLowerCase h) = true ->
  forallb (plainLine names) body = true ->
  extractSection (join nl (pre ++ h :: body)) names
  = orElse (trim (join nl (h :: body))) noInformation.
Proof.
  intros Hlf Hpre Hh Hbody. unfold extractSection.
  rewrite split_join; [| destruct pre; discriminate | exact Hlf].
  destruct (scanLines_never_ends names pre (h :: body) None EmptyString false
              Hpre) as (prev' & ext' & cap' & ->).
  cbn [scanLines]. rewrite Hh.
  rewrite (scanLines_running_text names body _ _ Hbody).
  now rewrite join_heading.
Qed.

Lemma section_runs_from_last_heading_witness :
  extractSection
    (join nl ["Assessment: early draft"; "to be revised";
              "Diagnosis: Mild strain"; "  rest and ice"])
    diagnosisNames
  = join nl ["Diagnosis: Mild strain"; "  rest and ice"].
Proof.
  apply (section_runs_from_last_heading
           diagnosisNames ["Assessment: early draft"; "to be revised"]
           ["  rest and ice"] "Diagnosis: Mild strain");
    reflexivity.
Defined.

End SectionFacts.

(** ** The report renderer, continued *)

Module DrawingFacts.
Import Js Analyzer Renderer Drawing.

Section Render.
Variable pageWidth : Q.
Variable splitTextToSize : string -> Q -> list string.
Variable splitObjectToSize : gmap string Json -> Q -> list string.

#[local] Abbreviation generatePDF :=
  (generatePDF pageWidth splitTextToSize splitObjectToSize).

#[local] Abbreviation yBeforeDiagnosis :=
  (yBeforeDiagnosis pageWidth splitTextToSize splitObjectToSize).
#[local] Abbreviation yBeforeRecommendations :=
  (yBeforeRecommendations pageWidth splitTextToSize splitObjectToSize).
#[local] Abbreviation beforeDiagnosis :=
  (beforeDiagnosis pageWidth splitTextToSize splitObjectToSize).

(** The rendering, cut at the two cursor tests. *)
Lemma generatePDF_parts (r : AnalysisResult) (patientName today : string) :
  generatePDF (Some r) patientName today
  = (beforeDiagnosis r patientName today
       ++ breakIf (230 <? yBeforeDiagnosis r)%Z
       ++ sectionTitle "Diagnosis" (titleY (yBeforeDiagnosis r))
       ++ [TextLines (splitTextToSize (diagnosis r) (pageWidth - 40)) 20
                     (titleY (yBeforeDiagnosis r) + 10)]
       ++ breakIf (230 <? yBeforeRecommendations r)%Z
       ++ sectionTitle "Recommendations" (titleY (yBeforeRecommendations r))
       ++ [TextLines (splitTextToSize (recommendations r) (pageWidth - 40)) 20
                     (titleY (yBeforeRecommendations r) + 10);
           Save (patientName +:+ "_AI_Health_Report.pdf")])%list.
Proof.
  unfold titleY, Renderer.yBeforeRecommendations.
  set (y1 := yBeforeDiagnosis r).
  unfold Renderer.generatePDF, newPageIfNeeded.
  change (50 + 30 + (10 + Z.of_nat (length (splitTextToSize (textFindings r) (pageWidth - 40))) * 7)
          + (10 + Z.of_nat (length (splitObjectToSize (imageFindings r) (pageWidth - 40))) * 7))%Z
    with y1.
  destruct (230 <? y1)%Z; cbn [snd fst];
    destruct (230 <? _)%Z; reflexivity.
Qed.

Lemma titleY_bounds (y : Z) : (20 <= y -> 20 <= titleY y <= 230)%Z.
Proof.
  unfold titleY. destruct (230 <? y)%Z eqn:E; [lia |].
  apply Z.ltb_ge in E. lia.
Qed.

Lemma yBeforeDiagnosis_low (r : AnalysisResult) : (20 <= yBeforeDiagnosis r)%Z.
Proof. unfold Renderer.yBeforeDiagnosis. lia. Qed.

Lemma yBeforeRecommendations_low (r : AnalysisResult) :
  (20 <= yBeforeRecommendations r)%Z.
Proof.
  unfold Renderer.yBeforeRecommendations.
  pose proof (titleY_bounds _ (yBeforeDiagnosis_low r)) as H.
  unfold titleY in H. unfold newPageIfNeeded.
  destruct (230 <? _)%Z; cbn [snd]; lia.
Qed.

Lemma beforeDiagnosis_titles (r : AnalysisResult) (patientName today : string)
      (title : string) (x y : Z) :
  In (Text title x y) (beforeDiagnosis r patientName today) ->
  isCheckedTitle title = false.
Proof.
  unfold Renderer.beforeDiagnosis. cbn. intros H.
  repeat (destruct H as [H | H];
          [ try discriminate H; injection H as <- _ _; reflexivity | ]).
  contradiction.
Qed.

Lemma sectionTitle_text (name title : string) (yPos x y : Z) :
  In (Text title x y) (sectionTitle name yPos) -> y = yPos.
Proof.
  cbn. intros H.
  repeat (destruct H as [H | H]; [try discriminate H; now injection H |]).
  contradiction.
Qed.

(** X10.  The titles "Diagnosis" and "Recommendations" are always drawn
    with the cursor between 20 and 230, whatever the length of the texts
    before them; the title "Image Analysis" has no such guard and is drawn
    at 90 + 7 per line of document findings. *)
Theorem checked_titles_stay_on_the_page
        (r : AnalysisResult) (patientName today : string) :
  (forall title x y,
      isCheckedTitle title = true ->
      In (Text title x y) (generatePDF (Some r) patientName today) ->
      (20 <= y <= 230)%Z)
  /\ In (Text "Image Analysis" 20
              (90 + 7 * Z.of_nat (length (splitTextToSize (textFindings r)
                                                          (pageWidth - 40)))))
        (generatePDF (Some r) patientName today).
Proof.
  rewrite generatePDF_parts. split.
  - intros title x y Ht Hin.
    apply in_app_or in Hin as [Hin | Hin].
    { apply beforeDiagnosis_titles in Hin. congruence. }
    apply in_app_or in Hin as [Hin | Hin].
    { destruct (230 <? _)%Z; cbn in Hin; [destruct Hin as [Hin | []] |];
        [discriminate Hin | contradiction]. }
    apply in_app_or in Hin as [Hin | Hin].
    { apply sectionTitle_text in Hin as ->.
      apply titleY_bounds, yBeforeDiagnosis_low. }
    apply in_app_or in Hin as [Hin | Hin].
    { destruct Hin as [Hin | []]. discriminate Hin. }
    apply in_app_or in Hin as [Hin | Hin].
    { destruct (230 <? _)%Z; cbn in Hin; [destruct Hin as [Hin | []] |];
        [discriminate Hin | contradiction]. }
    apply in_app_or in Hin as [Hin | Hin].
    { apply sectionTitle_text in Hin as ->.
      apply titleY_bounds, yBeforeRecommendations_low. }
    destruct Hin as [Hin | [Hin | []]]; discriminate Hin.
  - apply in_or_app. left. unfold Renderer.beforeDiagnosis. cbn.
    do 17 right. left. f_equal. lia.
Qed.

(** X11.  With a result, the rendering saves exactly once, as its last
    call, under the patient's name followed by "_AI_Health_Report.pdf";
    without a result it draws and saves nothing. *)
Theorem rendering_saves_once_at_the_end
        (r : AnalysisResult) (patientName today : string) :
  (exists drawing,
      generatePDF (Some r) patientName today
        = (drawing ++ [Save (patientName +:+ "_AI_Health_Report.pdf")])%list
      /\ forallb (fun c => negb (isSave c)) drawing = true)
  /\ generatePDF None patientName today = [].
Proof.
  split; [| reflexivity].
  rewrite generatePDF_parts.
  eexists. split.
  - rewrite !app_assoc.
    change [?a; Save ?n] with ([a] ++ [Save n])%list.
    rewrite !app_assoc. reflexivity.
  - rewrite !forallb_app. unfold breakIf.
    destruct (230 <? _)%Z; destruct (230 <? _)%Z; reflexivity.
Qed.

End Render.

End DrawingFacts.

(** ** The dashboard shell, continued *)

Module ShellViewFacts.
Import Shell ShellView ShellFacts.

(** X12.  After any sequence of events from the initial state, the shell
    shows the component of whichever panel flag is set -- the order of the
    conditional chain never decides -- and the role's home component when
    none is. *)
Theorem view_is_the_open_panel (isAdmin : bool) (events : list Event) :
  let p := run events initial in
  (forall k, isOpen k p = false \/ mainView isAdmin p = panelView k)
  /\ ((exists k, isOpen k p = true) \/ mainView isAdmin p = homeView isAdmin).
Proof.
  intros p. assert (H : openCount p <= 1).
  { apply run_at_most_one. cbn. lia. }
  clearbody p. split.
  - intros k.
    destruct p as [[] [] [] [] [] []], k; cbn in *;
      first [now left | now right | lia].
  - destruct p as [[] [] [] [] [] []]; cbn in *;
      first [ now right
            | left; first [ now exists Profile | now exists Blockchain
                          | now exists Community | now exists HandTracker
                          | now exists AdminControl
                          | now exists ReportAnalyzer ] ].
Qed.

(** X13.  Pressing a panel's button shows that panel when it was closed
    and the home component when it was open, whatever else was open
    before. *)
Theorem toggle_shows_panel_or_home (isAdmin : bool) (k : Panel) (p : Panels) :
  mainView isAdmin (toggle k p)
  = if isOpen k p then homeView isAdmin else panelView k.
Proof.
  destruct k, p as [[] [] [] [] [] []]; reflexivity.
Qed.

Lemma handle_keeps_admin_closed (p : Panels) (e : Event) :
  offered false p e = true -> showAdminControl p = false ->
  showAdminControl (handle p e) = false.
Proof. destruct e; cbn; congruence. Qed.

Lemma run_keeps_admin_closed (events : list Event) :
  forall p, allOffered false events p = true -> showAdminControl p = false ->
            showAdminControl (run events p) = false.
Proof.
  induction events as [|e events IH]; intros p H Hp; [exact Hp |].
  cbn [allOffered] in H. apply andb_true_iff in H as [He Hrest].
  cbn [run fold_left]. apply IH; [exact Hrest |].
  now apply handle_keeps_admin_closed.
Qed.

(** X14.  A user who is not an admin never reaches the admin control
    panel: with the controls the page offers such a user, the admin flag
    stays false and the shell never shows [AdminControl]. *)
Theorem member_never_sees_admin_control (events : list Event) :
  allOffered false events initial = true ->
  showAdminControl (run events initial) = false
  /\ mainView false (run events initial) <> AdminControlView.
Proof.
  intros H.
  assert (A : showAdminControl (run events initial) = false)
    by now apply run_keeps_admin_closed.
  split; [exact A |].
  unfold mainView. rewrite A.
  repeat (destruct (_ (run events initial)); [discriminate |]).
  discriminate.
Qed.

Lemma member_never_sees_admin_control_witness :
  mainView false (run [ToggleProfile; CloseProfile; ToggleCommunity] initial)
  <> AdminControlView.
Proof.
  exact (proj2 (member_never_sees_admin_control
                  [ToggleProfile; CloseProfile; ToggleCommunity] eq_refl)).
Defined.

End ShellViewFacts.

(** ** Rewards, continued *)

Module CouponFacts.
Import Js Rewards Coupons RewardsFacts.

Lemma handle_balanced (userId : string) (s : State) (e : Event) :
  balanced s -> balanced (handle userId s e).
Proof.
  unfold balanced, tasksDone. intros H.
  destruct e as [m | randomStr expiry | c]; cbn [handle].
  - destruct m; cbn; lia.
  - unfold claimReward. destruct (userPoints s <? 100)%Z; [exact H |].
    cbn. rewrite length_app. cbn. lia.
  - cbn. now rewrite length_map.
Qed.

(** X15.  Points are conserved: after any sequence of events from the
    initial state, the points held plus 100 per coupon issued equal 10 per
    task completed. *)
Theorem points_are_conserved (userId : string) (events : list Event) :
  let s := run userId events initial in
  (userPoints s + 100 * Z.of_nat (length (userCoupons s)) = 10 * tasksDone s)%Z.
Proof.
  cbn zeta. change (balanced (run userId events initial)).
  assert (G : forall s, balanced s -> balanced (run userId events s)).
  { induction events as [|e events IH]; intros s H; [exact H |].
    apply IH. now apply handle_balanced. }
  apply G. reflexivity.
Qed.

Lemma startsWith_app (a b : string) : startsWith (a +:+ b) a = true.
Proof.
  induction a as [|c a IH]; [now destruct b |].
  cbn. now rewrite Ascii.eqb_refl.
Qed.

Lemma handle_coupons (userId : string) (s : State) (e : Event) :
  Forall (wellFormedCoupon userId) (userCoupons s) ->
  Forall (wellFormedCoupon userId) (userCoupons (handle userId s e)).
Proof.
  intros H. destruct e as [m | randomStr expiry | c]; cbn [handle].
  - exact H.
  - unfold claimReward. destruct (userPoints s <? 100)%Z; [exact H |].
    cbn [userCoupons]. apply Forall_app. split; [exact H |].
    constructor; [| constructor]. split; [now left |].
    cbn [code].
    replace ("HEX-" +:+ userId +:+ "-" +:+ randomStr)
      with (("HEX-" +:+ userId +:+ "-") +:+ randomStr)
      by (cbn; f_equal; f_equal; f_equal; f_equal;
          now rewrite JsFacts.append_assoc).
    apply startsWith_app.
  - cbn [redeemCoupon userCoupons]. apply Forall_map.
    eapply Forall_impl; [exact H |].
    intros k [Hs Hc]. cbn beta.
    destruct (String.eqb (code k) c); [| now split].
    split; [now right | exact Hc].
Qed.

(** X16.  Every coupon the panel ever holds has status "active" or
    "claimed" and a code that starts with "HEX-", the user id and "-". *)
Theorem coupons_are_well_formed (userId : string) (events : list Event) :
  Forall (fun k => (status k = "active" \/ status k = "claimed")
                   /\ startsWith (code k) ("HEX-" +:+ userId +:+ "-") = true)
         (userCoupons (run userId events initial)).
Proof.
  change (Forall (wellFormedCoupon userId)
                 (userCoupons (run userId events initial))).
  assert (G : forall s, Forall (wellFormedCoupon userId) (userCoupons s) ->
                        Forall (wellFormedCoupon userId)
                               (userCoupons (run userId events s))).
  { induction events as [|e events IH]; intros s H; [exact H |].
    apply IH. now apply handle_coupons. }
  apply G. constructor.
Qed.

(** X17.  Redeeming a code marks every coupon of that code as claimed and
    touches nothing else: codes, expiry dates, order and number of coupons
    stay, coupons of other codes keep their status, the points stay; and
    redeeming the same code again changes nothing. *)
Theorem redeemCoupon_claims_that_code (c : string) (s : State) :
  let s' := redeemCoupon c s in
  Forall (fun k => code k = c -> status k = "claimed") (userCoupons s')
  /\ Forall2 (fun k k' => code k' = code k /\ expiry k' = expiry k
                          /\ (code k = c \/ status k' = status k))
             (userCoupons s) (userCoupons s')
  /\ userPoints s' = userPoints s
  /\ redeemCoupon c s' = s'.
Proof.
  destruct s as [pts coupons prog]. cbn.
  split; [| split; [| split; [reflexivity |]]].
  - induction coupons as [|k coupons IH]; [constructor |].
    cbn [map]. constructor; [| exact IH].
    destruct (String.eqb (code k) c) eqn:E; [reflexivity |].
    intros H. apply String.eqb_neq in E. contradiction.
  - induction coupons as [|k coupons IH]; [constructor |].
    cbn [map]. constructor; [| exact IH].
    destruct (String.eqb (code k) c) eqn:E; cbn.
    + apply String.eqb_eq in E. auto.
    + auto.
  - unfold redeemCoupon. cbn. f_equal.
    induction coupons as [|k coupons IH]; [reflexivity |].
    cbn [map]. rewrite IH. f_equal.
    destruct (String.eqb (code k) c) eqn:E; cbn [code]; now rewrite E.
Qed.

End CouponFacts.

(** ** Cleaning a reply for display *)

Module AiTextFacts.
Import Js JsFacts AiText SectionFacts.

Lemma allChars_app (P : ascii -> bool) (a b : string) :
  allChars P (a +:+ b) = allChars P a && allChars P b.
Proof.
  unfold allChars. induction a as [|c a IH]; simpl; [reflexivity |].
  rewrite IH. now rewrite andb_assoc.
Qed.

Lemma allChars_trimStart (P : ascii -> bool) (s : string) :
  allChars P s = true -> allChars P (trimStart s) = true.
Proof.
  unfold allChars. induction s as [|c s IH]; [easy |].
  cbn [trimStart]. destruct (isWhiteSpace c); [| easy].
  simpl. intros H. apply andb_true_iff in H as [_ H]. auto.
Qed.

Lemma allChars_trimEnd (P : ascii -> bool) (s : string) :
  allChars P s = true -> allChars P (trimEnd s) = true.
Proof.
  unfold allChars. induction s as [|c s IH]; [easy |].
  simpl. intros H. apply andb_true_iff in H as [Hc Hs].
  specialize (IH Hs). destruct (trimEnd s) as [|d t].
  - destruct (isWhiteSpace c); simpl; [reflexivity | now rewrite Hc].
  - simpl in *. now rewrite Hc.
Qed.

Lemma allChars_trim (P : ascii -> bool) (s : string) :
  allChars P s = true -> allChars P (trim s) = true.
Proof. intros H. now apply allChars_trimEnd, allChars_trimStart. Qed.

Lemma allChars_split (P : ascii -> bool) (sep : ascii) (s : string) :
  allChars P s = true ->
  Forall (fun l => allChars P l = true) (split sep s).
Proof.
  unfold allChars. induction s as [|c s IH]; intros H.
  - repeat constructor.
  - simpl in H. apply andb_true_iff in H as [Hc Hs]. specialize (IH Hs).
    cbn [split]. destruct (Ascii.eqb c sep).
    + constructor; [reflexivity | exact IH].
    + destruct (split sep s) as [|l ls].
      * repeat constructor. simpl. now rewrite Hc.
      * inversion IH as [|? ? Hl Hls]; subst.
        constructor; [| exact Hls]. simpl. now rewrite Hc, Hl.
Qed.

(** The pieces of a split hold no separator. *)
Lemma split_pieces (sep : ascii) (s : string) :
  Forall (fun l => allChars (isNot sep) l = true) (split sep s).
Proof.
  unfold allChars. induction s as [|c s IH].
  - repeat constructor.
  - cbn [split]. destruct (Ascii.eqb c sep) eqn:E.
    + constructor; [reflexivity | exact IH].
    + destruct (split sep s) as [|l ls].
      * repeat constructor. simpl. unfold isNot. now rewrite E.
      * inversion IH as [|? ? Hl Hls]; subst.
        constructor; [| exact Hls]. simpl. unfold isNot at 1.
        now rewrite E, Hl.
Qed.

Lemma allChars_join (P : ascii -> bool) (sep : string) (xs : list string) :
  allChars P sep = true ->
  Forall (fun l => allChars P l = true) xs ->
  allChars P (join sep xs) = true.
Proof.
  intros Hsep. induction 1 as [|x xs Hx Hxs IH]; [reflexivity |].
  destruct xs as [|y ys]; [exact Hx |].
  change (join sep (x :: y :: ys)) with (x +:+ sep +:+ join sep (y :: ys)).
  now rewrite !allChars_app, Hx, Hsep, IH.
Qed.

Lemma removeStars_clean (s : string) :
  allChars (isNot "*") (removeStars s) = true.
Proof.
  unfold allChars. induction s as [|c s IH]; [reflexivity |].
  cbn [removeStars]. destruct (Ascii.eqb c "*") eqn:E; [exact IH |].
  simpl. unfold isNot at 1. now rewrite E, IH.
Qed.

Lemma allChars_removeLinks (P : ascii -> bool) (s : string) :
  allChars P s = true -> forall skip, allChars P (removeLinks skip s) = true.
Proof.
  unfold allChars. induction s as [|c s IH]; intros H skip; [reflexivity |].
  simpl in H. apply andb_true_iff in H as [Hc Hs].
  cbn [removeLinks]. destruct skip as [|k]; [| now apply IH].
  destruct (linkLength (String c s)) as [[|n] |];
    try (simpl; now rewrite Hc, IH).
  now apply IH.
Qed.

Lemma Forall_filter_map_trim (P : ascii -> bool) (ls : list string) :
  Forall (fun l => allChars P l = true) ls ->
  Forall (fun l => allChars P l = true) (List.filter truthy (map trim ls)).
Proof.
  induction 1 as [|l ls Hl Hls IH]; [constructor |].
  cbn [map List.filter]. destruct (truthy (trim l)); [| exact IH].
  constructor; [now apply allChars_trim | exact IH].
Qed.

(** X18.  The formatted reply holds no asterisk. *)
Theorem formatAIResponse_has_no_asterisk (response : string) :
  allChars (isNot "*") (formatAIResponse response) = true.
Proof.
  unfold formatAIResponse. apply allChars_join; [reflexivity |].
  apply Forall_filter_map_trim, allChars_split, allChars_removeLinks,
    removeStars_clean.
Qed.

Lemma keptLines_clean (ls : list string) :
  Forall (fun l => l <> EmptyString /\ trim l = l)
         (List.filter truthy (map trim ls)).
Proof.
  induction ls as [|l ls IH]; [constructor |].
  cbn [map List.filter]. destruct (truthy (trim l)) eqn:E; [| exact IH].
  constructor; [| exact IH]. split.
  - unfold truthy in E. apply negb_true_iff in E. now apply String.eqb_neq.
  - apply trim_idempotent.
Qed.

Lemma Forall_noLF (ls : list string) :
  Forall (fun l => allChars (isNot LF) l = true) ls -> forallb noLF ls = true.
Proof.
  induction 1 as [|l ls Hl Hls IH]; [reflexivity |].
  cbn [forallb]. rewrite IH. change (noLF l) with (allChars (isNot LF) l).
  now rewrite Hl.
Qed.

(** X19.  The formatted reply is empty, or each of its lines is non-empty
    and has neither leading nor trailing white space: blank lines and
    indentation are gone. *)
Theorem formatAIResponse_lines_are_trimmed (response : string) :
  formatAIResponse response = EmptyString
  \/ Forall (fun l => l <> EmptyString /\ trim l = l)
            (split LF (formatAIResponse response)).
Proof.
  unfold formatAIResponse. fold (keptLines response).
  destruct (keptLines response) as [|l ls] eqn:E; [now left |].
  right. rewrite split_join.
  - rewrite <- E. apply keptLines_clean.
  - discriminate.
  - rewrite <- E. apply Forall_noLF, Forall_filter_map_trim, split_pieces.
Qed.

Lemma removeLinks_skips (n : nat) (s : string) :
  removeLinks n s = removeLinks 0 (dropChars n s).
Proof.
  revert s. induction n as [|n IH]; intros s; [now destruct s |].
  destruct s as [|c s]; [reflexivity |]. cbn [removeLinks dropChars]. apply IH.
Qed.

Lemma runToBracket_body (u rest : string) :
  allChars (isNot "]") u = true ->
  runToBracket (u +:+ String "]" rest) = Some (String.length u).
Proof.
  unfold allChars. induction u as [|c u IH]; simpl; intros H; [reflexivity |].
  apply andb_true_iff in H as [Hc Hu]. unfold isNot in Hc.
  apply negb_true_iff in Hc. rewrite Hc, (IH Hu). reflexivity.
Qed.

Lemma removeLinks_plain (s : string) :
  allChars (isNot "[") s = true -> removeLinks 0 s = s.
Proof.
  unfold allChars. induction s as [|c s IH]; [reflexivity |].
  simpl. intros H. apply andb_true_iff in H as [Hc Hs].
  unfold isNot in Hc. apply negb_true_iff in Hc.
  assert (L : linkLength (String c s) = None).
  { unfold linkLength. cbn [startsWith].
    rewrite Ascii.eqb_sym, Hc. reflexivity. }
  rewrite L. now rewrite (IH Hs).
Qed.

Lemma removeLinks_match (s : string) (n : nat) :
  linkLength s = Some (S n) ->
  removeLinks 0 s = removeLinks 0 (dropChars (S n) s).
Proof.
  intros L. destruct s as [|c s]; [discriminate L |].
  cbn [removeLinks dropChars]. rewrite L. apply removeLinks_skips.
Qed.

Lemma startsWith_empty (s : string) : startsWith s EmptyString = true.
Proof. now destruct s. Qed.

Lemma linkLength_http (address rest : string) :
  address <> EmptyString ->
  allChars (isNot "]") address = true ->
  linkLength ("[http://" +:+ address +:+ String "]" rest)
  = Some (S (8 + String.length address)).
Proof.
  intros Hne Ha. unfold linkLength. simpl.
  rewrite startsWith_empty. cbn [dropChars].
  rewrite (runToBracket_body _ _ Ha).
  destruct address; [contradiction |]. cbn [String.length]. f_equal. lia.
Qed.

Lemma linkLength_https (address rest : string) :
  address <> EmptyString ->
  allChars (isNot "]") address = true ->
  linkLength ("[https://" +:+ address +:+ String "]" rest)
  = Some (S (9 + String.length address)).
Proof.
  intros Hne Ha. unfold linkLength. simpl.
  rewrite startsWith_empty. cbn [dropChars].
  rewrite (runToBracket_body _ _ Ha).
  destruct address; [contradiction |]. cbn [String.length]. f_equal. lia.
Qed.

Lemma dropChars_past (u rest : string) :
  dropChars (S (String.length u)) (u +:+ String "]" rest) = rest.
Proof. induction u as [|c u IH]; [now destruct rest | exact IH]. Qed.

(** X20.  A bracketed link [[http://...]] or [[https://...]] (a non-empty
    address without a closing bracket) is deleted whole and the scan goes
    on behind it; a text without an opening bracket is left as it is. *)
Theorem removeLinks_deletes_bracketed_links (address rest : string) :
  address <> EmptyString ->
  allChars (isNot "]") address = true ->
  removeLinks 0 ("[http://" +:+ address +:+ "]" +:+ rest) = removeLinks 0 rest
  /\ removeLinks 0 ("[https://" +:+ address +:+ "]" +:+ rest)
     = removeLinks 0 rest
  /\ (allChars (isNot "[") rest = true -> removeLinks 0 rest = rest).
Proof.
  intros Hne Ha.
  change ("]" +:+ rest) with (String "]" rest).
  split; [| split; [| apply removeLinks_plain]].
  - rewrite (removeLinks_match _ _ (linkLength_http address rest Hne Ha)).
    change (dropChars (S (8 + ?n)) ("[http://" +:+ ?s)) with (dropChars (S n) s).
    now rewrite dropChars_past.
  - rewrite (removeLinks_match _ _ (linkLength_https address rest Hne Ha)).
    change (dropChars (S (9 + ?n)) ("[https://" +:+ ?s)) with (dropChars (S n) s).
    now rewrite dropChars_past.
Qed.

Lemma removeLinks_deletes_bracketed_links_witness :
  removeLinks 0 ("[http://" +:+ "example.org/a" +:+ "]" +:+ " and more")
  = removeLinks 0 " and more".
Proof.
  refine (proj1 (removeLinks_deletes_bracketed_links
                   "example.org/a" " and more" _ _)).
  - discriminate.
  - reflexivity.
Defined.

End AiTextFacts.

(** ** The dashboard's journal, challenges and assistant *)

Module DashboardFacts.
Import Js JsFacts AiText AiTextFacts Dashboard.

(** *** Challenges *)

Lemma toggle_ids (id : Z) (l : list Challenge) :
  map chId (map (fun challenge =>
                   if toComplete id challenge
                   then mkChallenge (chId challenge) (day challenge)
                                    (activity challenge) true
                   else challenge) l)
  = map chId l.
Proof.
  induction l as [|c l IH]; [reflexivity |].
  cbn [map]. rewrite IH. now destruct (toComplete id c).
Qed.

Lemma toggle_completed (id : Z) (l : list Challenge) :
  length (List.filter completed
            (map (fun challenge =>
                    if toComplete id challenge
                    then mkChallenge (chId challenge) (day challenge)
                                     (activity challenge) true
                    else challenge) l))
  = length (List.filter completed l) + length (List.filter (toComplete id) l).
Proof.
  induction l as [|c l IH]; [reflexivity |].
  cbn [map List.filter]. destruct (toComplete id c) eqn:T.
  - assert (E : completed c = false).
    { unfold toComplete in T. apply andb_true_iff in T as [_ T].
      now apply negb_true_iff in T. }
    rewrite E. cbn [completed length]. rewrite IH. lia.
  - destruct (completed c); cbn [length]; rewrite IH; lia.
Qed.

Lemma toComplete_at_most_once (id : Z) (l : list Challenge) :
  NoDup (map chId l) -> length (List.filter (toComplete id) l) <= 1.
Proof.
  induction l as [|c l IH]; cbn [map List.filter]; intros H; [cbn; lia |].
  apply NoDup_cons in H as [Hc Hl]. specialize (IH Hl).
  destruct (toComplete id c) eqn:E; [| exact IH].
  assert (Z : List.filter (toComplete id) l = []).
  { clear IH Hl. induction l as [|d l IHl]; [reflexivity |].
    cbn [List.filter map] in *.
    apply not_elem_of_cons in Hc as [Hcd Hc].
    destruct (toComplete id d) eqn:D; [| now apply IHl].
    unfold toComplete in E, D.
    apply andb_true_iff in E as [E _]. apply andb_true_iff in D as [D _].
    apply Z.eqb_eq in E, D. congruence. }
  rewrite Z. cbn. lia.
Qed.

Lemma toComplete_none (id : Z) (l : list Challenge) :
  Forall (fun c => chId c = id -> completed c = true) l ->
  List.filter (toComplete id) l = []
  /\ map (fun challenge =>
            if toComplete id challenge
            then mkChallenge (chId challenge) (day challenge)
                             (activity challenge) true
            else challenge) l = l.
Proof.
  induction 1 as [|c l Hc Hl [IH1 IH2]]; [now split |].
  cbn [List.filter map].
  assert (E : toComplete id c = false).
  { unfold toComplete. destruct (chId c =? id)%Z eqn:E; [| reflexivity].
    apply Z.eqb_eq in E. now rewrite (Hc E). }
  rewrite E, IH1, IH2. now split.
Qed.

(** X21.  Pressing the button of a challenge that is already completed (or
    of an id that no challenge has) changes no challenge and fires no
    confetti, yet still awards 10 points and counts one more challenge task:
    the award does not depend on whether anything was completed. *)
Theorem toggleChallenge_awards_points_regardless (id : Z) (s : State) :
  Forall (fun c => chId c = id -> completed c = true) (challenges s) ->
  let s' := toggleChallenge id s in
  challenges s' = challenges s
  /\ confettiShots s' = confettiShots s
  /\ Rewards.userPoints (rewards s') = (Rewards.userPoints (rewards s) + 10)%Z
  /\ Rewards.pChallenges (Rewards.moduleProgress (rewards s'))
     = Rewards.pChallenges (Rewards.moduleProgress (rewards s)) + 1.
Proof.
  intros H. destruct (toComplete_none id _ H) as [E1 E2].
  cbn. rewrite E1, E2. cbn. repeat split; lia.
Qed.

Lemma toggleChallenge_awards_points_regardless_witness :
  Rewards.userPoints (rewards (toggleChallenge 1 (toggleChallenge 1 initial)))
  = 20%Z.
Proof.
  refine (proj1 (proj2 (proj2 (toggleChallenge_awards_points_regardless
                                 1 (toggleChallenge 1 initial) _)))).
  repeat constructor; cbn; intros; (reflexivity || lia).
Defined.

Lemma ids_NoDup : NoDup [1; 2; 3; 4; 5; 6; 7]%Z.
Proof. apply (bool_decide_unpack _). reflexivity. Qed.

Lemma handle_challengesInOrder (userId : string) (s : State) (e : Event) :
  challengesInOrder s -> challengesInOrder (handle userId s e).
Proof.
  unfold challengesInOrder, completedCount.
  intros (Hid & Hshots & Hle).
  destruct e as [text | transcript | now | id | randomStr expiry | code];
    cbn [handle].
  - now split.
  - now split.
  - unfold handleJournalSubmit. destruct (truthy _); [| now split].
    cbn [challenges confettiShots rewards Rewards.completeTask Rewards.bump
         Rewards.moduleProgress Rewards.pChallenges]. now split.
  - cbn [toggleChallenge challenges confettiShots rewards].
    rewrite toggle_ids, toggle_completed. split; [exact Hid |].
    split; [lia |].
    pose proof (toComplete_at_most_once id (challenges s)) as H1.
    rewrite Hid in H1. specialize (H1 ids_NoDup).
    cbn [Rewards.completeTask Rewards.bump Rewards.moduleProgress
         Rewards.pChallenges]. lia.
  - cbn [withRewards challenges confettiShots rewards].
    unfold Rewards.claimReward.
    destruct (_ <? _)%Z; cbn; now split.
  - now split.
Qed.

(** X22.  After any sequence of these events, the seven challenges keep
    their ids and order, the confetti has been fired exactly once per
    completed challenge, and the number of completed challenges is at most
    7 and at most the number of challenge tasks counted. *)
Theorem challenges_stay_in_order (userId : string) (events : list Event) :
  let s := run userId events initial in
  map chId (challenges s) = [1; 2; 3; 4; 5; 6; 7]%Z
  /\ confettiShots s = completedCount s
  /\ completedCount s <= 7
  /\ completedCount s
     <= Rewards.pChallenges (Rewards.moduleProgress (rewards s)).
Proof.
  assert (G : forall s, challengesInOrder s ->
                        challengesInOrder (run userId events s)).
  { induction events as [|e events IH]; intros s H; [exact H |].
    apply IH. now apply handle_challengesInOrder. }
  destruct (G initial) as (Hid & Hshots & Hle).
  { repeat split. cbn. lia. }
  cbn zeta. repeat split; try assumption.
  unfold completedCount.
  etransitivity; [apply filter_length_le |].
  rewrite <- (length_map chId), Hid. reflexivity.
Qed.

(** *** Journal *)

Lemma handle_journalInOrder (userId : string) (s : State) (e : Event) :
  journalInOrder s -> journalInOrder (handle userId s e).
Proof.
  unfold journalInOrder. intros (Hne & Hlen).
  destruct e as [text | transcript | now | id | randomStr expiry | code];
    cbn [handle].
  - now split.
  - now split.
  - unfold handleJournalSubmit. destruct (truthy _) eqn:E; [| now split].
    cbn. split.
    + constructor; [| exact Hne]. cbn.
      unfold truthy in E. apply negb_true_iff in E. now apply String.eqb_neq.
    + destruct (Rewards.moduleProgress (rewards s)); cbn in *. lia.
  - cbn. destruct (Rewards.moduleProgress (rewards s)); cbn in *. now split.
  - cbn [withRewards journalEntries rewards]. unfold Rewards.claimReward.
    destruct (_ <? _)%Z; cbn; now split.
  - now split.
Qed.

(** X23.  After any sequence of these events, no stored journal entry is
    blank and the journal holds exactly as many entries as journaling
    tasks were counted; a submission with a blank draft changes nothing at
    all. *)
Theorem journal_holds_no_blank_entry (userId : string) (events : list Event) :
  let s := run userId events initial in
  Forall (fun e => trim (entry e) <> EmptyString) (journalEntries s)
  /\ length (journalEntries s)
     = Rewards.pJournaling (Rewards.moduleProgress (rewards s))
  /\ (forall now t, trim (journalEntry t) = EmptyString ->
                    handleJournalSubmit now t = t).
Proof.
  assert (G : forall s, journalInOrder s -> journalInOrder (run userId events s)).
  { induction events as [|e events IH]; intros s H; [exact H |].
    apply IH. now apply handle_journalInOrder. }
  destruct (G initial) as (Hne & Hlen); [now split |].
  cbn zeta. split; [exact Hne |]. split; [exact Hlen |].
  intros now t H. unfold handleJournalSubmit. now rewrite H.
Qed.

(** *** The assistant *)

(** X24.  Asking a medical question: a blank question does nothing; any
    other question sends exactly one prompt, and afterwards the loading
    flag is off and the response shown is either the formatted reply or
    the apology (with the failure logged) -- in both cases without an
    asterisk. *)
Theorem asking_a_medical_question
        (generateContent : nat -> string -> option string) (d : Desk) :
  let q := medicalQuestion (cells d) in
  let d' := handleMedicalQuestion generateContent d in
  (trim q = EmptyString -> d' = d)
  /\ (trim q <> EmptyString ->
      prompts d' = (prompts d ++ [medicalPrompt q])%list
      /\ isLoading (cells d') = false
      /\ medicalQuestion (cells d') = q
      /\ allChars (isNot "*") (aiResponse (cells d')) = true
      /\ ((aiResponse (cells d') = apology
           /\ errorsLogged d' = errorsLogged d + 1)
          \/ (exists reply,
                 generateContent (length (prompts d)) (medicalPrompt q)
                   = Some reply
                 /\ aiResponse (cells d') = formatAIResponse reply
                 /\ errorsLogged d' = errorsLogged d))).
Proof.
  cbn zeta. unfold handleMedicalQuestion, truthy. split.
  - intros ->. reflexivity.
  - intros H. apply String.eqb_neq in H. rewrite H. cbn [negb].
    unfold askAI.
    destruct (generateContent _ _) as [reply |] eqn:E; cbn.
    + repeat split.
      * unfold formatAIResponse. apply allChars_join; [reflexivity |].
        apply Forall_filter_map_trim, allChars_split, allChars_removeLinks,
          removeStars_clean.
      * right. now exists reply.
    + repeat split. now left.
Qed.

(** *** The user id *)

Lemma upperChar_alnum (c : ascii) :
  isAlnum c = true -> isUpperOrDigit (upperChar c) = true.
Proof.
  destruct c as [[] [] [] [] [] [] [] []]; vm_compute; congruence.
Qed.

Lemma keepAlnum_upper (e : string) :
  allChars isUpperOrDigit (toUpperCase (keepAlnum e)) = true.
Proof.
  unfold allChars. induction e as [|c e IH]; [reflexivity |].
  cbn [keepAlnum]. destruct (isAlnum c) eqn:A; [| exact IH].
  cbn [toUpperCase list_ascii_of_string forallb].
  now rewrite (upperChar_alnum c A), IH.
Qed.

(** X25.  The user id built from the email holds only the capital letters
    A-Z and digits, whatever the address; the fallback "USER" is used
    exactly when there is no email or the email is empty. *)
Theorem userId_is_capitals_and_digits (email : option string) :
  allChars isUpperOrDigit (userIdOf email) = true
  /\ (userIdOf None = "USER" /\ userIdOf (Some EmptyString) = "USER")
  /\ (forall c e, userIdOf (Some (String c e))
                  = toUpperCase (keepAlnum (String c e))).
Proof.
  split; [| split; [split |]]; try reflexivity.
  destruct email as [e |]; [| reflexivity].
  unfold userIdOf. destruct (truthy e); [apply keepAlnum_upper | reflexivity].
Qed.

End DashboardFacts.

(** ** The health profile form *)

Module HealthProfileFacts.
Import HealthProfile.

Lemma press_in_range (step : Z) (c : Click) :
  (1 <= step <= 6 -> 1 <= press step c <= 6)%Z.
Proof. destruct c; cbn; unfold nextStep, prevStep; lia. Qed.

Lemma press_enabled_in_range (step : Z) (c : Click) :
  enabled step c = true ->
  (1 <= step <= 5 -> 1 <= press step c <= 5)%Z.
Proof.
  destruct c; cbn; unfold nextStep, prevStep; intros E H.
  - apply Z.ltb_lt in E. lia.
  - lia.
Qed.

Lemma walk_in_range (clicks : list Click) :
  forall step, (1 <= step <= 6 -> 1 <= walk clicks step <= 6)%Z.
Proof.
  induction clicks as [|c clicks IH]; intros step H; [exact H |].
  apply IH. now apply press_in_range.
Qed.

Lemma walk_enabled_in_range (clicks : list Click) :
  forall step, allEnabled clicks step = true ->
               (1 <= step <= 5 -> 1 <= walk clicks step <= 5)%Z.
Proof.
  induction clicks as [|c clicks IH]; intros step E H; [exact H |].
  cbn [allEnabled] in E. apply andb_true_iff in E as [Ec Erest].
  apply IH; [exact Erest |]. now apply press_enabled_in_range.
Qed.

(** X26.  The form's step stays between 1 and 6 under any sequence of
    [nextStep] and [prevStep]; with the buttons as they are rendered
    ("Next" only below step 5) it stays between 1 and 5, so the page of
    step 6 is never reached. *)
Theorem form_never_reaches_step_six (clicks : list Click) :
  allEnabled clicks initialStep = true ->
  (1 <= walk clicks initialStep <= 5)%Z
  /\ (forall any, 1 <= walk any initialStep <= 6)%Z.
Proof.
  intros E. split.
  - apply walk_enabled_in_range; [exact E | unfold initialStep; lia].
  - intros any. apply walk_in_range. unfold initialStep. lia.
Qed.

Lemma form_never_reaches_step_six_witness :
  (1 <= walk [Next; Next; Next; Next; Previous; Next] initialStep <= 5)%Z.
Proof.
  exact (proj1 (form_never_reaches_step_six
                  [Next; Next; Next; Next; Previous; Next] eq_refl)).
Defined.

End HealthProfileFacts.
